(** * Logo compliance checker of campaign_automation

    A shallow embedding of [src/campaign_automation/compliance_check.py]:
    [check_logo_in_image] (feature matching of a logo against one campaign
    image) and [check_campaign_compliance] (the runner over the
    product x aspect-ratio x market combinations).

    - Python floats are IEEE binary64 values, here [spec_float] with the
      operations of the standard library's [SpecFloat] at precision 53.
    - OpenCV, the file system, pathlib, the YAML loader and [str()] are
      outside the repository: they are the fields of the class [External].
      Every call that can raise or depend on the outside world is a
      computation in a state-and-exception monad over an abstract [World].
    - Values read from the YAML document are dynamically typed ([pyval]);
      attribute and iteration errors of Python are exceptions of the monad.
    - Text written by [print] is not part of the model; the [len] calls made
      while printing are, because they can raise.
    - An exception is one that [except Exception] catches; interrupts are
      not modelled. *)

From Stdlib Require Import ZArith List String Ascii Bool Lia QArith Qabs.
From Stdlib Require Import Floats.SpecFloat.
Import ListNotations.
Open Scope string_scope.
Open Scope Z_scope.

(* ================================================================== *)
(** ** Python floats *)

Module PyFloat.

Definition prec : Z := 53.
Definition emax : Z := 1024.

Definition float := spec_float.

(** The literals [0.0], [1.0] and [0.75]. *)
Definition zero : float := S754_zero false.
Definition one : float := S754_finite false 4503599627370496 (-52).
Definition three_quarters : float := S754_finite false 6755399441055744 (-53).

(** An integer as an exact (not normalised) operand of a division. *)
Definition Z2SF (z : Z) : float :=
  match z with
  | Z0 => S754_zero false
  | Zpos p => S754_finite false p 0
  | Zneg p => S754_finite true p 0
  end.

(** [a / b] on Python ints, [b <> 0]: the correctly rounded quotient. *)
Definition int_truediv (a b : Z) : float := SFdiv prec emax (Z2SF a) (Z2SF b).

(** [float(z)]. *)
Definition float_of_int (z : Z) : float := binary_normalize prec emax z 0 false.

Definition fmul (x y : float) : float := SFmul prec emax x y.
Definition flt (x y : float) : bool := SFltb x y.
Definition fle (x y : float) : bool := SFleb x y.

(** [min(a, b)]: the first argument unless the second is smaller. *)
Definition py_min (a b : float) : float := if flt b a then b else a.

(** The integer nearest to [n / d] for [0 < d], ties to the even one. *)
Definition round_half_even (n d : Z) : Z :=
  let q := n / d in
  let r := n mod d in
  match (2 * r ?= d) with
  | Lt => q
  | Gt => q + 1
  | Eq => if Z.even q then q else q + 1
  end.

(** The integer [k] such that [k / 10^ndigits] is the decimal with [ndigits]
    places nearest to the exact value of a finite float of mantissa [m] and
    exponent [e]. *)
Definition decimal_digits (m : positive) (e : Z) (ndigits : Z) : Z :=
  if 0 <=? e then Zpos m * 2 ^ e * 10 ^ ndigits
  else round_half_even (Zpos m * 10 ^ ndigits) (2 ^ (- e)).

(** [round(x, ndigits)] for [0 <= ndigits]: the float nearest to the
    correctly rounded decimal (CPython rounds the exact binary value with
    its decimal conversion and reads the digits back). *)
Definition py_round (x : float) (ndigits : Z) : float :=
  match x with
  | S754_finite s m e =>
      let k := decimal_digits m e ndigits in
      if k =? 0 then S754_zero s
      else SFdiv prec emax (Z2SF (if s then - k else k)) (Z2SF (10 ^ ndigits))
  | _ => x
  end.

(** The exact value of a float (0 for the infinities and NaN). *)
Definition B2Q (x : float) : Q :=
  match x with
  | S754_finite s m e =>
      let v := if 0 <=? e then inject_Z (Zpos m * 2 ^ e)
               else Qmake (Zpos m) (2 ^ Z.to_pos (- e))%positive in
      if s then Qopp v else v
  | _ => 0%Q
  end.

(** A float of the unit interval: [+0.0], or a positive finite float of
    value [m * 2^e <= 1]. *)
Definition unit_float (x : float) : Prop :=
  x = zero \/
  exists m e, x = S754_finite false m e /\ e < 0 /\ Zpos m <= 2 ^ (- e).

(** The number of thousandths nearest to a float. *)
Definition thousandths (x : float) : Z :=
  match x with
  | S754_finite _ m e => decimal_digits m e 3
  | _ => 0
  end.

(** [0, 1, ..., n]. *)
Definition upto (n : nat) : list Z := map Z.of_nat (seq 0 (S n)).

End PyFloat.

Import PyFloat.

(* ================================================================== *)
(** ** Exceptions and the outside world *)

(** The result of a Python call: a value, or a raised exception carried as
    its message [str(e)]. *)
Inductive outcome (A : Type) : Type :=
| Ok (a : A)
| Raise (msg : string).
Arguments Ok {A} a.
Arguments Raise {A} msg.

(** Computations that read or change the world and may raise. *)
Definition M (W A : Type) : Type := W -> outcome A * W.

Definition ret {W A} (a : A) : M W A := fun w => (Ok a, w).

Definition raise {W A} (msg : string) : M W A := fun w => (Raise msg, w).

Definition bind {W A B} (c : M W A) (k : A -> M W B) : M W B :=
  fun w =>
    match c w with
    | (Ok a, w') => k a w'
    | (Raise msg, w') => (Raise msg, w')
    end.

(** [try: c except Exception as e: h e]. *)
Definition try_except {W A} (c : M W A) (h : string -> M W A) : M W A :=
  fun w =>
    match c w with
    | (Ok a, w') => (Ok a, w')
    | (Raise msg, w') => h msg w'
    end.

(** A pure call that may raise. *)
Definition lift {W A} (o : outcome A) : M W A := fun w => (o, w).

Declare Scope py_scope.
Delimit Scope py_scope with py.
Notation "x <- c ;; k" := (bind c (fun x => k))
  (at level 100, c at next level, right associativity) : py_scope.
Notation "' p <- c ;; k" := (bind c (fun x => let 'p := x in k))
  (at level 100, p pattern, c at next level, right associativity) : py_scope.
Open Scope py_scope.

(** [for x in l: st = body x st], stopping at the first exception. *)
Fixpoint for_each {W A S} (l : list A) (body : A -> S -> M W S) (st : S)
  : M W S :=
  match l with
  | [] => ret st
  | x :: rest => st' <- body x st ;; for_each rest body st'
  end.

(* ------------------------------------------------------------------ *)
(** *** Values of the YAML document *)

#[local] Unset Elimination Schemes.
Inductive pyval : Type :=
| PNone
| PBool (b : bool)
| PInt (z : Z)
| PFloat (f : float)
| PStr (s : string)
| PList (items : list pyval)
| PDict (entries : list (pyval * pyval)).
#[local] Set Elimination Schemes.

(** [type(v).__name__], as it appears in the messages of exceptions. *)
Definition type_name (v : pyval) : string :=
  match v with
  | PNone => "NoneType"
  | PBool _ => "bool"
  | PInt _ => "int"
  | PFloat _ => "float"
  | PStr _ => "str"
  | PList _ => "list"
  | PDict _ => "dict"
  end.

Definition key_is (k : pyval) (name : string) : bool :=
  match k with
  | PStr s => String.eqb s name
  | _ => false
  end.

Fixpoint lookup (entries : list (pyval * pyval)) (name : string)
  : option pyval :=
  match entries with
  | [] => None
  | (k, v) :: rest => if key_is k name then Some v else lookup rest name
  end.

(** [d.get(name, default)]; only a dict has the method. *)
Definition py_get (d : pyval) (name : string) (default : pyval)
  : outcome pyval :=
  match d with
  | PDict entries =>
      match lookup entries name with
      | Some v => Ok v
      | None => Ok default
      end
  | _ => Raise ("'" ++ type_name d ++ "' object has no attribute 'get'")
  end.

Fixpoint chars (s : string) : list pyval :=
  match s with
  | EmptyString => []
  | String c rest => PStr (String c EmptyString) :: chars rest
  end.

(** The items a [for] loop visits. *)
Definition py_iter (v : pyval) : outcome (list pyval) :=
  match v with
  | PList items => Ok items
  | PDict entries => Ok (map fst entries)
  | PStr s => Ok (chars s)
  | _ => Raise ("'" ++ type_name v ++ "' object is not iterable")
  end.

(** [len(v)]. *)
Definition py_len (v : pyval) : outcome Z :=
  match v with
  | PList items => Ok (Z.of_nat (List.length items))
  | PDict entries => Ok (Z.of_nat (List.length entries))
  | PStr s => Ok (Z.of_nat (String.length s))
  | _ => Raise ("object of type '" ++ type_name v ++ "' has no len()")
  end.

(** Truth value, as tested by [if v] and [not v]. *)
Definition py_truthy (v : pyval) : bool :=
  match v with
  | PNone => false
  | PBool b => b
  | PInt z => negb (z =? 0)
  | PFloat f => negb (SFeqb f zero)
  | PStr s => negb (String.eqb s "")
  | PList items => match items with [] => false | _ => true end
  | PDict entries => match entries with [] => false | _ => true end
  end.

(** Truth value of an optional string ([None] or a [str]). *)
Definition str_truthy (o : option string) : bool :=
  match o with
  | Some s => negb (String.eqb s "")
  | None => false
  end.

(** [t[i]] on a tuple or list: negative indices count from the end. *)
Definition py_getitem {A} (t : list A) (i : Z) : outcome A :=
  let n := Z.of_nat (List.length t) in
  let j := if i <? 0 then i + n else i in
  if (0 <=? j) && (j <? n) then
    match nth_error t (Z.to_nat j) with
    | Some a => Ok a
    | None => Raise "tuple index out of range"
    end
  else Raise "tuple index out of range".

(* ------------------------------------------------------------------ *)
(** *** OpenCV data *)

Definition point : Type := float * float.
Definition box : Type := Z * Z * Z * Z.

Record KeyPoint : Type := { pt : point }.

Record DMatch : Type := {
  queryIdx : Z;
  trainIdx : Z;
  distance : float
}.

(** What the module imports: pathlib, the file system, cv2, yaml and the
    built-in [str]. *)
Class External : Type := {
  World : Type;
  (* pathlib *)
  Path : Type;
  mkPath : string -> Path;
  path_str : Path -> string;
  is_absolute : Path -> bool;
  parts : Path -> list string;
  joinpath : Path -> string -> Path;
  path_exists : Path -> M World bool;
  (* cv2 *)
  Image : Type;
  Gray : Type;
  Descriptors : Type;
  Homography : Type;
  imread : string -> M World (option Image);
  cvtColor : Image -> M World Gray;
  detectAndCompute : Gray -> M World (list KeyPoint * option Descriptors);
  knnMatch : Descriptors -> Descriptors -> M World (list (list DMatch));
  findHomography : list point -> list point -> M World (option Homography);
  shape : Gray -> Z * Z;
  (* [perspectiveTransform] of the four corners and the bounding box of
     the projected quadrilateral, as [(x, y, width, height)] *)
  bounding_box : Homography -> Z * Z -> M World box;
  (* open + yaml.safe_load *)
  safe_load : Path -> M World pyval;
  (* str(), as applied by f-strings *)
  py_str : pyval -> string
}.

(* ================================================================== *)
(** ** check_logo_in_image *)

Record ComplianceResult : Type := {
  found : bool;
  match_count : Z;
  confidence : float;
  location : option box;
  error : option string
}.

(** The dictionary returned on every failure. *)
Definition failure (msg : string) : ComplianceResult :=
  {| found := false;
     match_count := 0;
     confidence := zero;
     location := None;
     error := Some msg |}.

Definition default_min_match_count : Z := 10.
Definition default_good_match_threshold : float := three_quarters.

(** The acceptance rule of the ratio test, stated on one entry of
    [knnMatch(des1, des2, k=2)]: an entry of two matches [m, n] passes when
    [m.distance < threshold * n.distance]; an entry of any other length
    does not take part. *)
Definition passes_ratio_test (good_match_threshold : float)
  (match_pair : list DMatch) : bool :=
  match match_pair with
  | [m; n] => flt (distance m) (fmul good_match_threshold (distance n))
  | _ => false
  end.

(** The loop that collects [good_matches] (lines 135-140). *)
Fixpoint ratio_test (good_match_threshold : float)
  (matches : list (list DMatch)) (good_matches : list DMatch)
  : list DMatch :=
  match matches with
  | [] => good_matches
  | match_pair :: rest =>
      match match_pair with
      | [m; n] =>
          if flt (distance m) (fmul good_match_threshold (distance n))
          then ratio_test good_match_threshold rest (good_matches ++ [m])
          else ratio_test good_match_threshold rest good_matches
      | _ => ratio_test good_match_threshold rest good_matches
      end
  end.

(** [[kp[i].pt for i in idxs]] (lines 159-160). *)
Fixpoint matched_points (kp : list KeyPoint) (idxs : list Z)
  : outcome (list point) :=
  match idxs with
  | [] => Ok []
  | i :: rest =>
      match py_getitem kp i with
      | Raise msg => Raise msg
      | Ok k =>
          match matched_points kp rest with
          | Raise msg => Raise msg
          | Ok pts => Ok (pt k :: pts)
          end
      end
  end.

(** [min(match_count / len(kp1), 1.0)] when the logo has keypoints, [0.0]
    otherwise (lines 146-149). *)
Definition confidence_score (match_count n_kp1 : Z) : float :=
  if 0 <? n_kp1 then py_min (int_truediv match_count n_kp1) one
  else zero.

Section CheckLogo.
Context {E : External}.

Local Abbreviation Py := (M World).

(** Keypoints and descriptors of both images. *)
Record Features : Type := {
  kp1 : list KeyPoint;
  des1 : option Descriptors;
  kp2 : list KeyPoint;
  des2 : option Descriptors;
  logo_gray : Gray
}.

(** Loading, grey conversion and feature detection (lines 63-116).  An
    early [return] of the function is the left summand. *)
Definition detect_features (campaign_image_path logo_path : string)
  : Py (ComplianceResult + Features) :=
  let campaign_img_path := mkPath campaign_image_path in
  let logo_img_path := mkPath logo_path in
  campaign_exists <- path_exists campaign_img_path ;;
  if negb campaign_exists then
    ret (inl (failure ("Campaign image not found: " ++ campaign_image_path)))
  else
  logo_exists <- path_exists logo_img_path ;;
  if negb logo_exists then
    ret (inl (failure ("Logo image not found: " ++ logo_path)))
  else
  campaign_img <- imread (path_str campaign_img_path) ;;
  logo_img <- imread (path_str logo_img_path) ;;
  match campaign_img with
  | None =>
      ret (inl (failure
                  ("Could not read campaign image: " ++ campaign_image_path)))
  | Some campaign_img =>
  match logo_img with
  | None =>
      ret (inl (failure ("Could not read logo image: " ++ logo_path)))
  | Some logo_img =>
      campaign_gray <- cvtColor campaign_img ;;
      logo_gray <- cvtColor logo_img ;;
      '(kp1, des1) <- detectAndCompute logo_gray ;;
      '(kp2, des2) <- detectAndCompute campaign_gray ;;
      ret (inr {| kp1 := kp1; des1 := des1; kp2 := kp2; des2 := des2;
                  logo_gray := logo_gray |})
  end
  end.

(** The body of the inner [try] (lines 158-184): the homography of the
    matched points and the bounding box of the projected logo corners. *)
Definition find_location (f : Features) (good_matches : list DMatch)
  : Py (option box) :=
  src_pts <- lift (matched_points (kp1 f) (map queryIdx good_matches)) ;;
  dst_pts <- lift (matched_points (kp2 f) (map trainIdx good_matches)) ;;
  H <- findHomography src_pts dst_pts ;;
  match H with
  | Some H =>
      location <- bounding_box H (shape (logo_gray f)) ;;
      ret (Some location)
  | None => ret None
  end.

(** Ratio test, confidence, verdict and location for the matches returned
    by the matcher (lines 134-195). *)
Definition decide (f : Features) (matches : list (list DMatch))
  (min_match_count : Z) (good_match_threshold : float)
  : Py ComplianceResult :=
  let good_matches := ratio_test good_match_threshold matches [] in
  let match_count := Z.of_nat (List.length good_matches) in
  let confidence :=
    confidence_score match_count (Z.of_nat (List.length (kp1 f))) in
  let logo_found := min_match_count <=? match_count in
  location <-
    (if logo_found && (4 <=? Z.of_nat (List.length good_matches)) then
       try_except (find_location f good_matches) (fun _ => ret None)
     else ret None) ;;
  ret {| found := logo_found;
         match_count := match_count;
         confidence := py_round confidence 3;
         location := location;
         error := None |}.

(** The body of the outer [try] (lines 62-195). *)
Definition check_logo_body (campaign_image_path logo_path : string)
  (min_match_count : Z) (good_match_threshold : float)
  : Py ComplianceResult :=
  r <- detect_features campaign_image_path logo_path ;;
  match r with
  | inl early => ret early
  | inr f =>
      match des1 f, des2 f with
      | Some d1, Some d2 =>
          matches <- knnMatch d1 d2 ;;
          decide f matches min_match_count good_match_threshold
      | _, _ => ret (failure "Not enough features detected in images")
      end
  end.

Definition check_logo_in_image (campaign_image_path logo_path : string)
  (min_match_count : Z) (good_match_threshold : float)
  : Py ComplianceResult :=
  try_except
    (check_logo_body campaign_image_path logo_path
       min_match_count good_match_threshold)
    (fun e => ret (failure ("Logo detection error: " ++ e))).

(** The run from world [w] got as far as the matcher: both images were
    read, both have descriptors, and [knnMatch] returned [matches],
    leaving the world [w']. *)
Definition matched (campaign_image_path logo_path : string) (w : World)
  (f : Features) (matches : list (list DMatch)) (w' : World) : Prop :=
  exists w1 d1 d2,
    detect_features campaign_image_path logo_path w = (Ok (inr f), w1) /\
    des1 f = Some d1 /\ des2 f = Some d2 /\
    knnMatch d1 d2 w1 = (Ok matches, w').

End CheckLogo.

(** The confidence formula as the specification writes it:
    [min(match_count / max(1, logo_keypoint_count), 1.0)]. *)
Definition spec_confidence (match_count logo_keypoint_count : Z) : float :=
  py_min (int_truediv match_count (Z.max 1 logo_keypoint_count)) one.

(* ================================================================== *)
(** ** check_campaign_compliance *)

(** One element of [results]: the combination, the two paths and the
    fields of the detection result. *)
Record ResultEntry : Type := {
  product_id : pyval;
  aspect_ratio : pyval;
  market_id : pyval;
  image_path : string;
  logo_path : string;
  result : ComplianceResult
}.

(** The returned dictionary.  The five counters are also the local
    variables of the loop; [load_error] is the key ['error'], present only
    when the campaign file was not found. *)
Record Summary : Type := {
  total_checked : Z;
  passed : Z;
  failed : Z;
  errors : Z;
  results : list ResultEntry;
  load_error : option string
}.

Definition no_checks : Summary :=
  {| total_checked := 0; passed := 0; failed := 0; errors := 0;
     results := []; load_error := None |}.

(** [total_checked += 1], [results.append(entry)] and the update of one of
    the three outcome counters (lines 301-337), taken together: the call of
    [check_logo_in_image] between them does not raise. *)
Definition record_result (st : Summary) (entry : ResultEntry) : Summary :=
  let r := result entry in
  {| total_checked := total_checked st + 1;
     passed := if str_truthy (error r) then passed st
               else if found r then passed st + 1 else passed st;
     failed := if str_truthy (error r) then failed st
               else if found r then failed st else failed st + 1;
     errors := if str_truthy (error r) then errors st + 1 else errors st;
     results := results st ++ [entry];
     load_error := load_error st |}.

(** The counters add up and every check left one entry. *)
Definition tallied (st : Summary) : Prop :=
  total_checked st = passed st + failed st + errors st /\
  Z.of_nat (List.length (results st)) = total_checked st.

Section Runner.
Context {E : External}.

Local Abbreviation Py := (M World).

(** The path of the localized image of a combination (lines 293-294). *)
Definition image_path_of (campaign_id product_id aspect_ratio market_id : pyval)
  : string :=
  let image_filename :=
    "campaign_" ++ py_str product_id ++ "_" ++ py_str market_id ++ "_"
      ++ py_str aspect_ratio ++ ".png" in
  "output/" ++ py_str campaign_id ++ "/" ++ py_str product_id ++ "/"
    ++ py_str aspect_ratio ++ "/" ++ py_str market_id ++ "/"
    ++ image_filename.

(** The body of [for market in markets] (lines 290-337). *)
Definition check_market (min_match_count : Z)
  (campaign_id product_id : pyval) (logo_path : string)
  (aspect_ratio market : pyval) (st : Summary) : Py Summary :=
  market_id <- lift (py_get market "market_id" PNone) ;;
  let image_path :=
    image_path_of campaign_id product_id aspect_ratio market_id in
  image_exists <- path_exists (mkPath image_path) ;;
  if negb image_exists then ret st
  else
    result <- check_logo_in_image image_path logo_path min_match_count
                default_good_match_threshold ;;
    ret (record_result st
           {| product_id := product_id;
              aspect_ratio := aspect_ratio;
              market_id := market_id;
              image_path := image_path;
              logo_path := logo_path;
              result := result |}).

(** The body of [for aspect_ratio in aspect_ratios] (lines 288-289). *)
Definition check_aspect_ratio (min_match_count : Z)
  (campaign_id product_id : pyval) (logo_path : string) (markets : pyval)
  (aspect_ratio : pyval) (st : Summary) : Py Summary :=
  market_list <- lift (py_iter markets) ;;
  for_each market_list
    (check_market min_match_count campaign_id product_id logo_path
       aspect_ratio) st.

(** [product.get('assets', {}).get('logo')]. *)
Definition logo_of (product : pyval) : outcome pyval :=
  match py_get product "assets" (PDict []) with
  | Ok assets => py_get assets "logo" PNone
  | Raise msg => Raise msg
  end.

(** A product without an [assets.logo] entry: a mapping with no [assets]
    key, or whose [assets] mapping has no [logo] key. *)
Definition lacks_logo (product : pyval) : Prop :=
  exists entries,
    product = PDict entries /\
    (lookup entries "assets" = None \/
     exists assets,
       lookup entries "assets" = Some (PDict assets) /\
       lookup assets "logo" = None).

(** The body of [for product in products] (lines 278-288). *)
Definition check_product (min_match_count : Z)
  (campaign_id markets aspect_ratios : pyval)
  (product : pyval) (st : Summary) : Py Summary :=
  product_id <- lift (py_get product "id" PNone) ;;
  logo_filename <- lift (logo_of product) ;;
  if negb (py_truthy logo_filename) then ret st
  else
    let logo_path := "input/assets/" ++ py_str logo_filename in
    ratio_list <- lift (py_iter aspect_ratios) ;;
    for_each ratio_list
      (check_aspect_ratio min_match_count campaign_id product_id logo_path
         markets) st.

(** Where the campaign file is looked for (lines 237-240). *)
Definition campaign_path_of (campaign_file : string) : Path :=
  let campaign_path := mkPath campaign_file in
  if negb (is_absolute campaign_path) then
    if Z.of_nat (List.length (parts campaign_path)) =? 1 then
      joinpath (mkPath "input/campaigns") campaign_file
    else campaign_path
  else campaign_path.

Definition check_campaign_compliance (campaign_file : string)
  (min_match_count : Z) (verbose : bool) : Py Summary :=
  let campaign_path := campaign_path_of campaign_file in
  campaign_exists <- path_exists campaign_path ;;
  if negb campaign_exists then
    ret {| total_checked := 0; passed := 0; failed := 0; errors := 1;
           results := [];
           load_error :=
             Some ("Campaign file not found: " ++ path_str campaign_path) |}
  else
    data <- safe_load campaign_path ;;
    campaign <- lift (py_get data "campaign" (PDict [])) ;;
    products <- lift (py_get data "products" (PList [])) ;;
    campaign_id <- lift (py_get campaign "id" PNone) ;;
    markets <- lift (py_get campaign "markets" (PList [])) ;;
    creative <- lift (py_get data "creative" (PDict [])) ;;
    aspect_ratios <- lift (py_get creative "aspect_ratios" (PList [])) ;;
    _ <- (if verbose then
            _ <- lift (py_len products) ;;
            _ <- lift (py_len markets) ;;
            _ <- lift (py_len aspect_ratios) ;;
            ret tt
          else ret tt) ;;
    product_list <- lift (py_iter products) ;;
    for_each product_list
      (check_product min_match_count campaign_id markets aspect_ratios)
      no_checks.

(** An entry of [results] that stands for a checked image: the existence
    test of its image answered true, and its logo path was built from a
    non-empty [assets.logo]. *)
Definition from_checked_image (entry : ResultEntry) : Prop :=
  (exists w1 w2,
      path_exists (mkPath (image_path entry)) w1 = (Ok true, w2)) /\
  (exists logo_filename,
      py_truthy logo_filename = true /\
      logo_path entry = "input/assets/" ++ py_str logo_filename).

End Runner.

(* ================================================================== *)
(** ** A static world for examples

    A [Scene] fixes the answer of every outside call; nothing changes
    between calls.  Paths are POSIX paths. *)

Module Fixture.

Fixpoint split_on (sep : ascii) (s : string) (cur : string) : list string :=
  match s with
  | EmptyString => [cur]
  | String c rest =>
      if Ascii.eqb c sep then cur :: split_on sep rest ""
      else split_on sep rest (cur ++ String c EmptyString)
  end.

Definition starts_with_slash (s : string) : bool :=
  match s with
  | String c _ => Ascii.eqb c "/"
  | EmptyString => false
  end.

(** The components of a path: empty and ["."] components are dropped. *)
Definition components (s : string) : list string :=
  filter (fun c => negb (String.eqb c "" || String.eqb c "."))
    (split_on "/" s "").

Definition posix_parts (s : string) : list string :=
  if starts_with_slash s then "/" :: components s else components s.

Definition posix_str (s : string) : string :=
  match components s with
  | [] => if starts_with_slash s then "/" else "."
  | cs => (if starts_with_slash s then "/" else "") ++ String.concat "/" cs
  end.

Definition posix_join (p : string) (s : string) : string :=
  if starts_with_slash s then posix_str s else posix_str (p ++ "/" ++ s).

(** [str()] of the scalars that occur as identifiers in the examples. *)
Definition scalar_str (v : pyval) : string :=
  match v with
  | PStr s => s
  | PNone => "None"
  | PBool true => "True"
  | PBool false => "False"
  | _ => "?"
  end.

Record Scene : Type := {
  files : list string;
  unreadable : list string;
  keypoints_of : string -> list KeyPoint;
  featureless : list string;
  knn : list (list DMatch);
  homography : outcome (option unit);
  projected : outcome box;
  documents : list (string * outcome pyval)
}.

Definition mem (s : string) (l : list string) : bool :=
  existsb (String.eqb s) l.

Fixpoint document_of (docs : list (string * outcome pyval)) (p : string)
  : outcome pyval :=
  match docs with
  | [] => Raise "cannot open"
  | (q, d) :: rest => if String.eqb p q then d else document_of rest p
  end.

Definition external (s : Scene) : External :=
  {| World := unit;
     Path := string;
     mkPath := posix_str;
     path_str := fun p => p;
     is_absolute := starts_with_slash;
     parts := posix_parts;
     joinpath := posix_join;
     path_exists := fun p => ret (mem p (files s));
     Image := string;
     Gray := string;
     Descriptors := string;
     Homography := unit;
     imread := fun p => ret (if mem p (unreadable s) then None else Some p);
     cvtColor := fun img => ret img;
     detectAndCompute := fun g =>
       ret (keypoints_of s g,
            if mem g (featureless s) then None else Some g);
     knnMatch := fun _ _ => ret (knn s);
     findHomography := fun _ _ => lift (homography s);
     shape := fun _ => (64, 64);
     bounding_box := fun _ _ => lift (projected s);
     safe_load := fun p => lift (document_of (documents s) p);
     py_str := scalar_str |}.

Definition kp (x y : Z) : KeyPoint :=
  {| pt := (float_of_int x, float_of_int y) |}.

Definition dm (q t d : Z) : DMatch :=
  {| queryIdx := q; trainIdx := t; distance := float_of_int d |}.

Definition logo_file : string := "input/assets/logo.png".
Definition image_file : string := "output/c1/p1/1x1/us/campaign_p1_us_1x1.png".

(** A logo of three keypoints; one of its three neighbour pairs passes
    the ratio test (10 < 0.75 * 40). *)
Definition sparse : Scene :=
  {| files := [logo_file; image_file];
     unreadable := [];
     keypoints_of := fun p =>
       if String.eqb p logo_file then [kp 1 1; kp 5 2; kp 3 7]
       else [kp 10 10; kp 50 20; kp 30 70; kp 8 8];
     featureless := [];
     knn := [[dm 0 0 10; dm 0 3 40]; [dm 1 1 30; dm 1 2 31];
             [dm 2 2 30; dm 2 0 40]];
     homography := Ok (Some tt);
     projected := Ok (10, 10, 40, 60);
     documents := [] |}.

Definition twelve : list Z := [0; 1; 2; 3; 4; 5; 6; 7; 8; 9; 10; 11].

(** Twelve keypoints, all matched unambiguously, and a homography fit that
    finds no model. *)
Definition dense (fit : outcome (option unit)) : Scene :=
  {| files := [logo_file; image_file];
     unreadable := [];
     keypoints_of := fun _ => map (fun i => kp i (2 * i)) twelve;
     featureless := [];
     knn := map (fun i => [dm i i 5; dm i ((i + 1) mod 12) 60]) twelve;
     homography := fit;
     projected := Ok (10, 10, 40, 60);
     documents := [] |}.

(** The logo is a blank image: no descriptors. *)
Definition blank_logo : Scene :=
  {| files := [logo_file; image_file];
     unreadable := [];
     keypoints_of := fun p =>
       if String.eqb p logo_file then [] else [kp 10 10; kp 50 20];
     featureless := [logo_file];
     knn := [];
     homography := Ok None;
     projected := Ok (0, 0, 0, 0);
     documents := [] |}.

(** The campaign image is not on disk. *)
Definition no_image : Scene :=
  {| files := [logo_file];
     unreadable := [];
     keypoints_of := fun _ => [];
     featureless := [];
     knn := [];
     homography := Ok None;
     projected := Ok (0, 0, 0, 0);
     documents := [] |}.

Definition market (id : string) : pyval :=
  PDict [(PStr "market_id", PStr id)].

Definition product (id : string) (logo : option string) : pyval :=
  PDict ((PStr "id", PStr id) ::
         match logo with
         | Some l => [(PStr "assets", PDict [(PStr "logo", PStr l)])]
         | None => []
         end).

(** Two products (the second without a logo), one aspect ratio and two
    markets. *)
Definition campaign_doc : pyval :=
  PDict [(PStr "campaign",
          PDict [(PStr "id", PStr "c1");
                 (PStr "markets", PList [market "us"; market "de"])]);
         (PStr "creative", PDict [(PStr "aspect_ratios", PList [PStr "1x1"])]);
         (PStr "products",
          PList [product "p1" (Some "logo.png"); product "p2" None])].

Definition campaign_yaml : string := "input/campaigns/holiday_campaign.yaml".
Definition broken_yaml : string := "input/campaigns/broken.yaml".

(** The campaign of [campaign_doc]: the image of market [us] was generated,
    the one of market [de] was not; a second campaign file is on disk but
    is not valid YAML. *)
Definition campaign : Scene :=
  {| files := [logo_file; image_file; campaign_yaml; broken_yaml];
     unreadable := [];
     keypoints_of := fun p =>
       if String.eqb p logo_file then [kp 1 1; kp 5 2; kp 3 7]
       else [kp 10 10; kp 50 20; kp 30 70; kp 8 8];
     featureless := [];
     knn := [[dm 0 0 10; dm 0 3 40]; [dm 1 1 30; dm 1 2 31];
             [dm 2 2 30; dm 2 0 40]];
     homography := Ok (Some tt);
     projected := Ok (10, 10, 40, 60);
     documents :=
       [(campaign_yaml, Ok campaign_doc);
        (broken_yaml, Raise "while parsing a block mapping")] |}.

(** What [check_logo_in_image] returns in the scene [sparse]. *)
Definition sparse_result : ComplianceResult :=
  {| found := false;
     match_count := 1;
     confidence := int_truediv 333 1000;
     location := None;
     error := None |}.

(** What it returns in the scenes [dense]. *)
Definition dense_result (loc : option box) : ComplianceResult :=
  {| found := true;
     match_count := 12;
     confidence := one;
     location := loc;
     error := None |}.

(** The entry and the summary of the campaign of the scene [campaign]. *)
Definition campaign_entry : ResultEntry :=
  {| product_id := PStr "p1";
     aspect_ratio := PStr "1x1";
     market_id := PStr "us";
     image_path := image_file;
     logo_path := logo_file;
     result := sparse_result |}.

Definition campaign_summary : Summary :=
  {| total_checked := 1; passed := 0; failed := 1; errors := 0;
     results := [campaign_entry]; load_error := None |}.

End Fixture.


(* ================================================================== *)
(** ** The rest of the module and its callers *)

(** How the runner's [if result['error'] / elif result['found'] / else]
    sorts an entry of [results] (lines 325-337). *)
Definition is_error (entry : ResultEntry) : bool :=
  str_truthy (error (result entry)).

Definition is_passed (entry : ResultEntry) : bool :=
  negb (is_error entry) && found (result entry).

Definition is_failed (entry : ResultEntry) : bool :=
  negb (is_error entry) && negb (found (result entry)).

(** What every result of [check_logo_in_image] called with
    [min_match_count] looks like: a failure record, or a verdict that
    follows the match count with a confidence between 0.0 and 1.0. *)
Definition detection_result (min_match_count : Z) (res : ComplianceResult)
  : Prop :=
  match error res with
  | Some _ =>
      found res = false /\ match_count res = 0 /\
      confidence res = zero /\ location res = None
  | None =>
      (found res = true <-> min_match_count <= match_count res) /\
      0 <= match_count res /\
      fle zero (confidence res) = true /\ fle (confidence res) one = true
  end.

(** The number of entries that satisfy a test. *)
Definition count (p : ResultEntry -> bool) (l : list ResultEntry) : Z :=
  Z.of_nat (List.length (filter p l)).

(** The three outcome counters are the numbers of entries of each kind. *)
Definition counted (st : Summary) : Prop :=
  errors st = count is_error (results st) /\
  passed st = count is_passed (results st) /\
  failed st = count is_failed (results st).

(** The items a loop over [v] visits, none when [v] cannot be iterated. *)
Definition items (v : pyval) : list pyval :=
  match py_iter v with
  | Ok l => l
  | Raise _ => []
  end.

(** The fields [check_campaign_compliance] reads off the document
    (lines 255-260): [campaign_id], [products], [markets] and
    [aspect_ratios]. *)
Record Fields : Type := {
  f_campaign_id : pyval;
  f_products : pyval;
  f_markets : pyval;
  f_aspect_ratios : pyval
}.

Definition fields_of (data : pyval) : outcome Fields :=
  match py_get data "campaign" (PDict []) with
  | Raise msg => Raise msg
  | Ok campaign =>
  match py_get data "products" (PList []) with
  | Raise msg => Raise msg
  | Ok products =>
  match py_get campaign "id" PNone with
  | Raise msg => Raise msg
  | Ok campaign_id =>
  match py_get campaign "markets" (PList []) with
  | Raise msg => Raise msg
  | Ok markets =>
  match py_get data "creative" (PDict []) with
  | Raise msg => Raise msg
  | Ok creative =>
  match py_get creative "aspect_ratios" (PList []) with
  | Raise msg => Raise msg
  | Ok aspect_ratios =>
      Ok {| f_campaign_id := campaign_id; f_products := products;
            f_markets := markets; f_aspect_ratios := aspect_ratios |}
  end end end end end end.

Section Main.
Context {E : External}.

(** Both the campaign file was found and the loader returned [data]. *)
Definition loaded (campaign_file : string) (w : World) (data : pyval)
  (w' : World) : Prop :=
  exists w1,
    path_exists (campaign_path_of campaign_file) w = (Ok true, w1) /\
    safe_load (campaign_path_of campaign_file) w1 = (Ok data, w').

(** An entry of [results] that belongs to a combination of the campaign:
    its identifiers are those of a product, an aspect ratio and a market of
    the document, and its two paths are the conventional ones. *)
Definition of_campaign (fs : Fields) (entry : ResultEntry) : Prop :=
  exists product market logo_filename,
    In product (items (f_products fs)) /\
    In (aspect_ratio entry) (items (f_aspect_ratios fs)) /\
    In market (items (f_markets fs)) /\
    py_get product "id" PNone = Ok (product_id entry) /\
    py_get market "market_id" PNone = Ok (market_id entry) /\
    logo_of product = Ok logo_filename /\
    py_truthy logo_filename = true /\
    logo_path entry = "input/assets/" ++ py_str logo_filename /\
    image_path entry =
      image_path_of (f_campaign_id fs) (product_id entry)
        (aspect_ratio entry) (market_id entry).

(** The script of the module (lines 367-391): the exit status.  [sys.exit]
    raises [SystemExit], which [except Exception] does not catch, so the
    status chosen inside the [try] is the status of the process. *)
Definition main (argv : list string) : M World Z :=
  let campaign_file :=
    match argv with
    | _ :: arg :: _ => arg
    | _ => "holiday_campaign.yaml"
    end in
  try_except
    (stats <- check_campaign_compliance campaign_file 10 true ;;
     if (0 <? failed stats) || (0 <? errors stats) then ret 1 else ret 0)
    (fun _ => ret 1).

End Main.

(** The command line of [workflow.py] (lines 483-490): every argument equal
    to [--dropbox] switches the synchronisation on, any other argument
    becomes the campaign file. *)
Definition parse_argument (st : option string * bool) (arg : string)
  : option string * bool :=
  let '(campaign_file, use_dropbox) := st in
  if String.eqb arg "--dropbox" then (campaign_file, true)
  else (Some arg, use_dropbox).

Definition parse_arguments (argv : list string) : option string * bool :=
  fold_left parse_argument (tl argv) (None, false).

(** More static worlds. *)
Module Scenes.
Import Fixture.

Definition empty_yaml : string := "input/campaigns/empty.yaml".
Definition bare_yaml : string := "input/campaigns/bare.yaml".
Definition odd_yaml : string := "input/campaigns/odd.yaml".
Definition plain_yaml : string := "input/campaigns/plain.yaml".

(** A document whose markets cannot be counted and that has no aspect
    ratios. *)
Definition odd_doc : pyval :=
  PDict [(PStr "campaign",
          PDict [(PStr "id", PStr "c1"); (PStr "markets", PInt 5)]);
         (PStr "products", PList [product "p1" (Some "logo.png")])].

(** A document whose only product has no logo. *)
Definition plain_doc : pyval :=
  PDict [(PStr "campaign",
          PDict [(PStr "id", PStr "c1");
                 (PStr "markets", PList [market "us"])]);
         (PStr "creative", PDict [(PStr "aspect_ratios", PList [PStr "1x1"])]);
         (PStr "products", PList [product "p2" None])].

(** The campaign of [Fixture.campaign_doc] with a logo that is found in
    the image of market [us]; four more campaign files: an empty one, one
    that holds an empty mapping, [odd_doc] and [plain_doc]. *)
Definition found_campaign : Scene :=
  {| files := [logo_file; image_file; campaign_yaml; empty_yaml; bare_yaml;
               odd_yaml; plain_yaml];
     unreadable := [];
     keypoints_of := fun _ => map (fun i => kp i (2 * i)) twelve;
     featureless := [];
     knn := map (fun i => [dm i i 5; dm i ((i + 1) mod 12) 60]) twelve;
     homography := Ok (Some tt);
     projected := Ok (10, 10, 40, 60);
     documents :=
       [(campaign_yaml, Ok campaign_doc);
        (empty_yaml, Ok PNone);
        (bare_yaml, Ok (PDict []));
        (odd_yaml, Ok odd_doc);
        (plain_yaml, Ok plain_doc)] |}.

(** The logo is not on disk. *)
Definition no_logo : Scene :=
  {| files := [image_file];
     unreadable := [];
     keypoints_of := fun _ => [];
     featureless := [];
     knn := [];
     homography := Ok None;
     projected := Ok (0, 0, 0, 0);
     documents := [] |}.

(** Both files are on disk and neither can be decoded. *)
Definition undecodable : Scene :=
  {| files := [logo_file; image_file];
     unreadable := [logo_file; image_file];
     keypoints_of := fun _ => [];
     featureless := [];
     knn := [];
     homography := Ok None;
     projected := Ok (0, 0, 0, 0);
     documents := [] |}.

Definition found_entry : ResultEntry :=
  {| product_id := PStr "p1";
     aspect_ratio := PStr "1x1";
     market_id := PStr "us";
     image_path := image_file;
     logo_path := logo_file;
     result := dense_result (Some (10, 10, 40, 60)) |}.

(** The fields of [Fixture.campaign_doc]. *)
Definition campaign_fields : Fields :=
  {| f_campaign_id := PStr "c1";
     f_products := PList [product "p1" (Some "logo.png"); product "p2" None];
     f_markets := PList [market "us"; market "de"];
     f_aspect_ratios := PList [PStr "1x1"] |}.

Definition found_summary : Summary :=
  {| total_checked := 1; passed := 1; failed := 0; errors := 0;
     results := [found_entry]; load_error := None |}.

(** A matcher that fails. *)
Definition broken_matcher : External :=
  {| World := unit;
     Path := string;
     mkPath := posix_str;
     path_str := fun p => p;
     is_absolute := starts_with_slash;
     parts := posix_parts;
     joinpath := posix_join;
     path_exists := fun p => ret (mem p [logo_file; image_file]);
     Image := string;
     Gray := string;
     Descriptors := string;
     Homography := unit;
     imread := fun p => ret (Some p);
     cvtColor := fun img => ret img;
     detectAndCompute := fun g => ret ([kp 1 1], Some g);
     knnMatch := fun _ _ => raise "OpenCV: bad descriptor type";
     findHomography := fun _ _ => ret None;
     shape := fun _ => (64, 64);
     bounding_box := fun _ _ => ret (0, 0, 0, 0);
     safe_load := fun _ => raise "cannot open";
     py_str := scalar_str |}.

Definition fifteen : list Z := [1; 2; 3; 4; 5; 6; 7; 8; 9; 10; 11; 12; 13; 14; 15].

(** A logo of sixteen keypoints; of its sixteen neighbour pairs only the
    first passes the ratio test. *)
Definition one_of_sixteen : Scene :=
  {| files := [logo_file; image_file];
     unreadable := [];
     keypoints_of := fun _ => map (fun i => kp i (2 * i)) (0 :: fifteen);
     featureless := [];
     knn := [dm 0 0 10; dm 0 1 40]
            :: map (fun i => [dm i i 30; dm i ((i + 1) mod 16) 31]) fifteen;
     homography := Ok None;
     projected := Ok (0, 0, 0, 0);
     documents := [] |}.

(** What [check_logo_in_image] returns in the scene [one_of_sixteen]. *)
Definition one_of_sixteen_result : ComplianceResult :=
  {| found := false;
     match_count := 1;
     confidence := int_truediv 62 1000;
     location := None;
     error := None |}.

(** A file system that refuses names of more than 255 characters: the
    existence test of such a name raises. *)
Definition long_names : External :=
  {| World := unit;
     Path := string;
     mkPath := posix_str;
     path_str := fun p => p;
     is_absolute := starts_with_slash;
     parts := posix_parts;
     joinpath := posix_join;
     path_exists := fun p =>
       if (255 <? String.length p)%nat
       then raise "[Errno 36] File name too long"
       else ret false;
     Image := string;
     Gray := string;
     Descriptors := string;
     Homography := unit;
     imread := fun p => ret None;
     cvtColor := fun img => ret img;
     detectAndCompute := fun g => ret ([], None);
     knnMatch := fun _ _ => ret [];
     findHomography := fun _ _ => ret None;
     shape := fun _ => (64, 64);
     bounding_box := fun _ _ => ret (0, 0, 0, 0);
     safe_load := fun _ => raise "cannot open";
     py_str := scalar_str |}.

(** A name of 300 characters. *)
Definition long_name : string :=
  String.concat EmptyString (repeat "campaign__" 30).

End Scenes.

(* ================================================================== *)
(** * Facts *)

(* ------------------------------------------------------------------ *)
(** ** Rounding of binary64 values *)

Section FloatFacts.

(** The literals are the binary64 values of 1, 3/4 and 0. *)
Example literals_binary64 :
  one = int_truediv 1 1 /\ three_quarters = int_truediv 3 4 /\
  valid_binary prec emax one = true /\
  valid_binary prec emax three_quarters = true /\
  (B2Q one == 1)%Q /\ (B2Q zero == 0)%Q.
Proof. repeat split. Qed.

(** [round(1/3, 3) = 0.333]; 1/16 = 0.0625 is a tie and goes to the even
    0.062; the float of 1/80 lies above 0.0125 and goes to 0.013. *)
Example py_round_samples :
  py_round (int_truediv 1 3) 3 = int_truediv 333 1000 /\
  py_round (int_truediv 2 3) 3 = int_truediv 667 1000 /\
  py_round (int_truediv 1 16) 3 = int_truediv 62 1000 /\
  py_round (int_truediv 1 80) 3 = int_truediv 13 1000 /\
  py_round one 3 = one /\ py_round zero 3 = zero.
Proof. vm_compute. repeat split. Qed.

(** [0.75 * 40.0 = 30.0], and 10.0 is below it. *)
Example ratio_test_sample :
  fmul three_quarters (float_of_int 40) = float_of_int 30 /\
  flt (float_of_int 10) (fmul three_quarters (float_of_int 40)) = true /\
  flt (float_of_int 30) (fmul three_quarters (float_of_int 40)) = false.
Proof. vm_compute. repeat split. Qed.

Lemma digits2_pos_bound (p : positive) : Zpos p < 2 ^ Zpos (digits2_pos p).
Proof.
  induction p as [p IH | p IH |]; cbn [digits2_pos].
  - rewrite Pos2Z.inj_succ, Z.pow_succ_r by lia. lia.
  - rewrite Pos2Z.inj_succ, Z.pow_succ_r by lia. lia.
  - reflexivity.
Qed.

Lemma Zdigits2_bound (m : Z) : 0 <= m -> m < 2 ^ Zdigits2 m.
Proof.
  destruct m as [| p | p]; intros H; cbn [Zdigits2].
  - reflexivity.
  - apply digits2_pos_bound.
  - lia.
Qed.

Lemma Zdigits2_nonneg (m : Z) : 0 <= m -> 0 <= Zdigits2 m.
Proof. destruct m; cbn; lia. Qed.

Lemma shr_1_bound (r : shr_record) (k : Z) :
  0 <= k -> 0 <= shr_m r < 2 ^ (k + 1) -> 0 <= shr_m (shr_1 r) < 2 ^ k.
Proof.
  intros Hk. rewrite Z.pow_add_r, Z.pow_1_r by lia.
  destruct r as [m r s]; cbn [shr_m shr_1].
  destruct m as [| [p | p |] | p]; cbn [shr_m]; intros H; try lia.
Qed.

Lemma iter_shr_1_bound (p : positive) :
  forall (r : shr_record) (k : Z),
    0 <= k -> 0 <= shr_m r < 2 ^ (k + Zpos p) ->
    0 <= shr_m (iter_pos shr_1 p r) < 2 ^ k.
Proof.
  induction p as [p IH | p IH |]; intros r k Hk H; cbn [iter_pos].
  - apply IH; [lia|]. apply IH; [lia|]. apply shr_1_bound; [lia|].
    replace (k + Zpos p + Zpos p + 1) with (k + Zpos p~1) by lia. exact H.
  - apply IH; [lia|]. apply IH; [lia|].
    replace (k + Zpos p + Zpos p) with (k + Zpos p~0) by lia. exact H.
  - apply shr_1_bound; [lia|]. exact H.
Qed.

Lemma shr_fexp_bound (m e : Z) (l : SpecFloat.location) :
  0 <= m ->
  0 <= shr_m (fst (shr_fexp prec emax m e l)) < 2 ^ prec.
Proof.
  intros Hm. unfold shr_fexp, shr.
  pose proof (Zdigits2_bound m Hm) as Hd.
  pose proof (Zdigits2_nonneg m Hm) as Hd0.
  assert (Hrec : shr_m (shr_record_of_loc m l) = m)
    by (destruct l as [| []]; reflexivity).
  remember (fexp prec emax (Zdigits2 m + e) - e) as n eqn:Hn.
  assert (Hge : Zdigits2 m - prec <= n) by (unfold fexp in Hn; lia).
  destruct n as [| p | p]; cbn [fst].
  - rewrite Hrec. split; [lia|].
    eapply Z.lt_le_trans; [exact Hd|]. apply Z.pow_le_mono_r; lia.
  - pose (k := Z.max 0 (Zdigits2 m - Zpos p)).
    assert (Hk : 0 <= shr_m (iter_pos shr_1 p (shr_record_of_loc m l)) < 2 ^ k).
    { apply iter_shr_1_bound; [lia|]. rewrite Hrec. split; [lia|].
      eapply Z.lt_le_trans; [exact Hd|]. apply Z.pow_le_mono_r; lia. }
    split; [lia|]. eapply Z.lt_le_trans; [apply Hk|].
    apply Z.pow_le_mono_r; unfold prec in *; lia.
  - rewrite Hrec. split; [lia|].
    eapply Z.lt_le_trans; [exact Hd|]. apply Z.pow_le_mono_r; lia.
Qed.

Lemma round_nearest_even_nonneg (m : Z) (l : SpecFloat.location) :
  0 <= m -> 0 <= round_nearest_even m l.
Proof.
  intros H. destruct l as [| []]; cbn [round_nearest_even]; try lia.
  destruct (Z.even m); lia.
Qed.

(** A rounded non-negative mantissa is a zero, an overflow, or a finite
    float whose mantissa has at most [prec] bits. *)
Lemma binary_round_aux_shape (s : bool) (m e : Z) (l : SpecFloat.location) :
  0 <= m ->
  let x := binary_round_aux prec emax s m e l in
  x = S754_zero s \/ x = S754_infinity s \/
  exists m' e', x = S754_finite s m' e' /\ Zpos m' < 2 ^ prec.
Proof.
  intros Hm x. subst x. unfold binary_round_aux.
  pose proof (shr_fexp_bound m e l Hm) as H1.
  destruct (shr_fexp prec emax m e l) as [mrs' e'] eqn:E1. cbn [fst] in H1.
  pose proof (shr_fexp_bound
                (round_nearest_even (shr_m mrs') (loc_of_shr_record mrs'))
                e' loc_Exact) as H2.
  destruct (shr_fexp prec emax
              (round_nearest_even (shr_m mrs') (loc_of_shr_record mrs'))
              e' loc_Exact) as [mrs'' e''] eqn:E2.
  cbn [fst] in H2.
  specialize (H2 (round_nearest_even_nonneg _ _ (proj1 H1))).
  destruct (shr_m mrs'') as [| p | p].
  - now left.
  - destruct (e'' <=? emax - prec).
    + right; right. exists p, e''. split; [reflexivity | lia].
    + right; now left.
  - lia.
Qed.

Lemma int_truediv_shape (a b : Z) :
  0 <= a -> 0 < b ->
  int_truediv a b = zero \/ int_truediv a b = S754_infinity false \/
  exists m e, int_truediv a b = S754_finite false m e /\ Zpos m < 2 ^ prec.
Proof.
  intros Ha Hb. unfold int_truediv.
  destruct b as [| pb | pb]; try lia.
  destruct a as [| pa | pa]; try lia.
  - left. reflexivity.
  - cbn [Z2SF SFdiv xorb].
    destruct (SFdiv_core_binary prec emax (Zpos pa) 0 (Zpos pb) 0)
      as [[mz ez] lz] eqn:Hcore.
    assert (Hmz : 0 <= mz).
    { unfold SFdiv_core_binary in Hcore.
      set (s := 0 - 0 - _) in Hcore.
      set (m' := match s with Z0 => _ | Zpos _ => _ | Zneg _ => _ end) in Hcore.
      assert (Hm' : 0 <= m').
      { subst m'. destruct s; try lia. apply Z.shiftl_nonneg. lia. }
      pose proof (Z.div_pos m' (Zpos pb) Hm' ltac:(lia)) as Hq.
      unfold Z.div in Hq.
      destruct (Z.div_eucl m' (Zpos pb)) as [q r]. cbn [fst] in Hq.
      inversion Hcore; subst. exact Hq. }
    apply (binary_round_aux_shape false mz ez lz Hmz).
Qed.

Lemma one_unit : unit_float one.
Proof.
  right. exists 4503599627370496%positive, (-52).
  split; [reflexivity|]. split; [reflexivity|]. vm_compute. discriminate.
Qed.

Lemma py_min_one_unit (x : float) :
  (x = zero \/ x = S754_infinity false \/
   exists m e, x = S754_finite false m e /\ Zpos m < 2 ^ prec) ->
  unit_float (py_min x one).
Proof.
  intros [-> | [-> | (m & e & -> & Hm)]].
  - left. reflexivity.
  - apply one_unit.
  - unfold py_min, flt, SFltb, one, SFcompare.
    change (Pos.compare_cont Eq 4503599627370496 m)
      with (Z.compare 4503599627370496 (Zpos m)).
    change (2 ^ prec) with 9007199254740992 in Hm.
    destruct (Z.compare_spec (-52) e) as [He | He | He].
    + subst e.
      destruct (Z.compare_spec 4503599627370496 (Zpos m)) as [Hc | Hc | Hc].
      * injection Hc as <-. apply one_unit.
      * apply one_unit.
      * right. exists m, (-52). split; [reflexivity|]. split; [lia|].
        change (2 ^ (- -52)) with 4503599627370496. lia.
    + apply one_unit.
    + right. exists m, e. split; [reflexivity|]. split; [lia|].
      assert (2 ^ 53 <= 2 ^ (- e)) by (apply Z.pow_le_mono_r; lia).
      change (2 ^ 53) with 9007199254740992 in H. lia.
Qed.

Lemma confidence_score_unit (match_count n : Z) :
  0 <= match_count -> unit_float (confidence_score match_count n).
Proof.
  intros Hm. unfold confidence_score.
  destruct (0 <? n) eqn:Hn.
  - apply py_min_one_unit, int_truediv_shape; lia.
  - left. reflexivity.
Qed.

Lemma round_half_even_bounds (n d c : Z) :
  0 < d -> 0 <= n <= c * d -> 0 <= round_half_even n d <= c.
Proof.
  intros Hd Hn. unfold round_half_even.
  pose proof (Z.div_mod n d ltac:(lia)) as Hdm.
  pose proof (Z.mod_pos_bound n d Hd) as Hr.
  assert (Hq0 : 0 <= n / d) by (apply Z.div_pos; lia).
  assert (Hqc : n / d <= c) by (apply Z.div_le_upper_bound; lia).
  destruct (Z.compare_spec (2 * (n mod d)) d) as [He | He | He].
  - destruct (Z.even (n / d)); [lia|]. 
    assert (n / d <> c) by nia. lia.
  - lia.
  - assert (n / d <> c) by nia. lia.
Qed.

Lemma round_half_even_error (n d : Z) :
  0 < d -> - d <= 2 * (n - d * round_half_even n d) <= d.
Proof.
  intros Hd. unfold round_half_even.
  pose proof (Z.div_mod n d ltac:(lia)) as Hdm.
  pose proof (Z.mod_pos_bound n d Hd) as Hr.
  destruct (Z.compare_spec (2 * (n mod d)) d) as [He | He | He];
    [destruct (Z.even (n / d)) | |]; nia.
Qed.

Lemma thousandths_bounds (x : float) :
  unit_float x -> 0 <= thousandths x <= 1000.
Proof.
  intros [-> | (m & e & -> & He & Hm)]; cbn [thousandths zero]; [lia|].
  unfold decimal_digits.
  destruct (0 <=? e) eqn:H0; [lia|].
  apply round_half_even_bounds.
  - apply Z.pow_pos_nonneg; lia.
  - change (10 ^ 3) with 1000. lia.
Qed.

Lemma py_round_unit (x : float) :
  unit_float x -> py_round x 3 = int_truediv (thousandths x) 1000.
Proof.
  intros Hx. pose proof (thousandths_bounds x Hx) as Hk.
  destruct Hx as [-> | (m & e & -> & He & Hm)]; [reflexivity|].
  cbn [thousandths] in *. cbn [py_round].
  destruct (decimal_digits m e 3 =? 0) eqn:Hz.
  - apply Z.eqb_eq in Hz. rewrite Hz. reflexivity.
  - reflexivity.
Qed.

Lemma upto_all (P : Z -> bool) (n : nat) :
  forallb P (upto n) = true ->
  forall k, 0 <= k <= Z.of_nat n -> P k = true.
Proof.
  intros H k Hk. rewrite forallb_forall in H. apply H.
  unfold upto. apply in_map_iff. exists (Z.to_nat k). split; [lia|].
  apply in_seq. lia.
Qed.

Lemma thousandth_in_unit_interval (k : Z) :
  0 <= k <= 1000 ->
  fle zero (int_truediv k 1000) = true /\ fle (int_truediv k 1000) one = true.
Proof.
  intros Hk. apply andb_true_iff.
  apply (upto_all
           (fun k => fle zero (int_truediv k 1000) && fle (int_truediv k 1000) one)
           1000); [vm_compute; reflexivity | exact Hk].
Qed.

Lemma thousandth_representation (k : Z) :
  0 <= k <= 1000 ->
  (Qabs (B2Q (int_truediv k 1000) - (k # 1000)) <= 1 # 18014398509481984)%Q.
Proof.
  intros Hk.
  apply Qle_bool_iff.
  apply (upto_all
           (fun k => Qle_bool (Qabs (B2Q (int_truediv k 1000) - (k # 1000)))
                       (1 # 18014398509481984))
           1000); [vm_compute; reflexivity | exact Hk].
Qed.

Lemma thousandths_error (x : float) :
  unit_float x ->
  (Qabs ((thousandths x # 1000) - B2Q x) <= 1 # 2000)%Q.
Proof.
  intros [-> | (m & e & -> & He & Hm)].
  - vm_compute. discriminate.
  - cbn [thousandths B2Q]. unfold decimal_digits.
    destruct (0 <=? e) eqn:H0; [lia|].
    change (10 ^ 3) with 1000.
    set (D := (2 ^ Z.to_pos (- e))%positive).
    assert (HD : 2 ^ (- e) = Zpos D).
    { subst D. rewrite Pos2Z.inj_pow. f_equal. lia. }
    rewrite HD.
    pose proof (round_half_even_error (Zpos m * 1000) (Zpos D) ltac:(lia)) as Herr.
    set (k := round_half_even (Zpos m * 1000) (Zpos D)) in *.
    apply Qabs_Qle_condition. unfold Qle, Qminus, Qplus, Qopp; cbn.
    split; nia.
Qed.

Lemma Qabs_diff_triangle (a b c e1 e2 : Q) :
  (Qabs (b - c) <= e1)%Q -> (Qabs (a - b) <= e2)%Q ->
  (Qabs (a - c) <= e1 + e2)%Q.
Proof.
  intros H1 H2.
  assert (Heq : (a - c == (b - c) + (a - b))%Q) by ring.
  rewrite Heq.
  eapply Qle_trans; [apply Qabs_triangle|].
  now apply Qplus_le_compat.
Qed.

End FloatFacts.

(* ------------------------------------------------------------------ *)
(** ** The monad *)

Section MonadFacts.
Context {W A B : Type}.

Lemma bind_Ok (c : M W A) (k : A -> M W B) (w w1 : W) (a : A) :
  c w = (Ok a, w1) -> bind c k w = k a w1.
Proof. intros H. unfold bind. now rewrite H. Qed.

Lemma bind_Raise (c : M W A) (k : A -> M W B) (w w1 : W) (msg : string) :
  c w = (Raise msg, w1) -> bind c k w = (Raise msg, w1).
Proof. intros H. unfold bind. now rewrite H. Qed.

Lemma bind_Ok_inv (c : M W A) (k : A -> M W B) (w w' : W) (b : B) :
  bind c k w = (Ok b, w') ->
  exists a w1, c w = (Ok a, w1) /\ k a w1 = (Ok b, w').
Proof.
  unfold bind. destruct (c w) as [[a | msg] w1]; intros H.
  - now exists a, w1.
  - discriminate.
Qed.

End MonadFacts.

Lemma lift_Ok_world {W A} (o : outcome A) (w w' : W) (a : A) :
  lift o w = (Ok a, w') -> w' = w.
Proof. unfold lift. intros H. now inversion H. Qed.

Lemma ret_inv {W A} (a b : A) (w w' : W) :
  ret a w = (Ok b, w') -> b = a /\ w' = w.
Proof. unfold ret. intros H. now inversion H. Qed.

(** Invert [bind c k w = (Ok b, w')] in hypothesis [H]. *)
Tactic Notation "bind_inv" hyp(H) "as" simple_intropattern(a) ident(w1)
  ident(Hc) :=
  apply bind_Ok_inv in H; destruct H as (a & w1 & Hc & H); cbv beta in H.

Lemma for_each_invariant {W A S} (P : S -> Prop) (body : A -> S -> M W S) :
  (forall x st w st' w', body x st w = (Ok st', w') -> P st -> P st') ->
  forall l st w st' w',
    for_each l body st w = (Ok st', w') -> P st -> P st'.
Proof.
  intros Hbody l. induction l as [| x l IH]; intros st w st' w' H HP.
  - apply ret_inv in H. destruct H as [-> _]. exact HP.
  - cbn [for_each] in H. bind_inv H as st1 w1 Hx. eauto.
Qed.

Lemma for_each_app {W A S} (body : A -> S -> M W S) (l1 l2 : list A) :
  forall st w,
    for_each (l1 ++ l2) body st w =
    bind (for_each l1 body st) (for_each l2 body) w.
Proof.
  induction l1 as [| x l1 IH]; intros st w.
  - reflexivity.
  - cbn [for_each app]. unfold bind.
    destruct (body x st w) as [[st1 | msg] w1]; [|reflexivity].
    rewrite IH. reflexivity.
Qed.

(* ------------------------------------------------------------------ *)
(** ** The ratio test *)

Lemma ratio_test_length (thr : float) (matches : list (list DMatch)) :
  forall good,
    List.length (ratio_test thr matches good) =
    (List.length good + List.length (filter (passes_ratio_test thr) matches))%nat.
Proof.
  induction matches as [| mp rest IH]; intros good; cbn [ratio_test filter].
  - cbn. lia.
  - destruct mp as [| m [| n [| x tl]]]; cbn [passes_ratio_test];
      try (rewrite IH; reflexivity).
    destruct (flt (distance m) (fmul thr (distance n))).
    + rewrite IH, length_app. cbn. lia.
    + apply IH.
Qed.


(* ------------------------------------------------------------------ *)
(** ** check_logo_in_image *)

Section LogoFacts.
Context {E : External}.

Lemma detect_features_early (c l : string) (w w' : World)
  (r : ComplianceResult) :
  detect_features c l w = (Ok (inl r), w') -> exists msg, r = failure msg.
Proof.
  unfold detect_features. intros H.
  bind_inv H as [|] w1 H1; cbn [negb] in H.
  2:{ apply ret_inv in H. destruct H as [H _]. inversion H. eauto. }
  bind_inv H as [|] w2 H2; cbn [negb] in H.
  2:{ apply ret_inv in H. destruct H as [H _]. inversion H. eauto. }
  bind_inv H as [cimg |] w3 H3; bind_inv H as [limg |] w4 H4;
    try (apply ret_inv in H; destruct H as [H _]; inversion H; eauto; fail).
  bind_inv H as cg w5 H5. bind_inv H as lg w6 H6.
  bind_inv H as [k1 d1] w7 H7. bind_inv H as [k2 d2] w8 H8.
  apply ret_inv in H. destruct H as [H _]. discriminate.
Qed.

(** The last stage always returns, with the verdict, the count and the
    rounded score computed from the matches. *)
Lemma decide_returns (f : Features) (matches : list (list DMatch))
  (mm : Z) (thr : float) (w : World) :
  let good := ratio_test thr matches [] in
  let n := Z.of_nat (List.length good) in
  exists loc w',
    decide f matches mm thr w =
    (Ok {| found := mm <=? n;
           match_count := n;
           confidence :=
             py_round (confidence_score n (Z.of_nat (List.length (kp1 f)))) 3;
           location := loc;
           error := None |}, w') /\
    (loc <> None -> (mm <=? n) = true /\ 4 <= n).
Proof.
  intros good n. unfold decide. fold good. fold n.
  destruct ((mm <=? n) && (4 <=? n)) eqn:Hc.
  - unfold bind, try_except.
    destruct (find_location f good w) as [[loc | msg] w1].
    + exists loc, w1. split; [reflexivity|]. intros _.
      apply andb_true_iff in Hc. destruct Hc as [H1 H2].
      split; [exact H1 | lia].
    + exists None, w1. split; [reflexivity|]. congruence.
  - exists None, w. split; [reflexivity|]. congruence.
Qed.

Lemma check_logo_forward (c l : string) (mm : Z) (thr : float)
  (w w2 : World) (f : Features) (matches : list (list DMatch)) :
  matched c l w f matches w2 ->
  check_logo_in_image c l mm thr w = decide f matches mm thr w2.
Proof.
  intros (w1 & d1 & d2 & Hd & H1 & H2 & Hk).
  destruct (decide_returns f matches mm thr w2) as (loc & w' & Hdec & _).
  unfold check_logo_in_image, try_except, check_logo_body.
  rewrite (bind_Ok _ _ _ _ _ Hd). rewrite H1, H2.
  rewrite (bind_Ok _ _ _ _ _ Hk). rewrite Hdec. reflexivity.
Qed.

(** Every result is a failure record or comes from the last stage. *)
Lemma check_logo_cases (c l : string) (mm : Z) (thr : float) (w : World) :
  (exists msg w', check_logo_in_image c l mm thr w = (Ok (failure msg), w')) \/
  (exists f matches w2, matched c l w f matches w2).
Proof.
  unfold check_logo_in_image, try_except.
  destruct (check_logo_body c l mm thr w) as [[res | msg] w'] eqn:Hb.
  2:{ left. eexists _, _. reflexivity. }
  unfold check_logo_body in Hb. bind_inv Hb as [early | f] w0 Hc.
  - apply ret_inv in Hb. destruct Hb as [-> ->].
    apply detect_features_early in Hc. destruct Hc as [msg ->].
    left. eexists _, _. reflexivity.
  - destruct (des1 f) as [d1 |] eqn:H1, (des2 f) as [d2 |] eqn:H2;
      try (apply ret_inv in Hb; destruct Hb as [-> ->];
           left; eexists _, _; reflexivity).
    bind_inv Hb as matches w1 Hk. right. exists f, matches, w1.
    exists w0, d1, d2. auto.
Qed.

Lemma check_logo_returns (c l : string) (mm : Z) (thr : float) (w : World) :
  exists res w', check_logo_in_image c l mm thr w = (Ok res, w').
Proof.
  destruct (check_logo_cases c l mm thr w)
    as [(msg & w' & H) | (f & matches & w2 & H)].
  - eauto.
  - rewrite (check_logo_forward _ _ mm thr _ _ _ _ H).
    destruct (decide_returns f matches mm thr w2) as (loc & w' & Hdec & _).
    eauto.
Qed.

Lemma check_logo_success (c l : string) (mm : Z) (thr : float)
  (w w' : World) (res : ComplianceResult) :
  check_logo_in_image c l mm thr w = (Ok res, w') ->
  error res = None ->
  exists f matches w2,
    matched c l w f matches w2 /\
    decide f matches mm thr w2 = (Ok res, w').
Proof.
  intros H Herr.
  destruct (check_logo_cases c l mm thr w)
    as [(msg & w1 & H1) | (f & matches & w2 & Hm)].
  - rewrite H in H1. inversion H1; subst. discriminate.
  - exists f, matches, w2. split; [exact Hm|].
    now rewrite <- (check_logo_forward _ _ mm thr _ _ _ _ Hm).
Qed.

Lemma check_logo_failure (c l : string) (mm : Z) (thr : float)
  (w w' : World) (res : ComplianceResult) :
  check_logo_in_image c l mm thr w = (Ok res, w') ->
  error res <> None ->
  exists msg, res = failure msg.
Proof.
  intros H Herr.
  destruct (check_logo_cases c l mm thr w)
    as [(msg & w1 & H1) | (f & matches & w2 & Hm)].
  - rewrite H in H1. inversion H1; subst. eauto.
  - rewrite (check_logo_forward _ _ mm thr _ _ _ _ Hm) in H.
    destruct (decide_returns f matches mm thr w2) as (loc & w3 & Hdec & _).
    rewrite Hdec in H. inversion H; subst. now cbn in Herr.
Qed.

End LogoFacts.

(* ------------------------------------------------------------------ *)
(** ** check_campaign_compliance *)

Lemma record_result_tallied (st : Summary) (entry : ResultEntry) :
  tallied st -> tallied (record_result st entry).
Proof.
  intros [Hsum Hlen]. unfold tallied, record_result; cbn.
  rewrite length_app; cbn.
  destruct (str_truthy (error (result entry))), (found (result entry)); lia.
Qed.

(** Exactly one of the three outcome counters goes up by one. *)
Lemma record_result_one_counter (st : Summary) (entry : ResultEntry) :
  let st' := record_result st entry in
  total_checked st' = total_checked st + 1 /\
  results st' = (results st ++ [entry])%list /\
  ((errors st' = errors st + 1 /\ passed st' = passed st /\
    failed st' = failed st) \/
   (errors st' = errors st /\ passed st' = passed st + 1 /\
    failed st' = failed st) \/
   (errors st' = errors st /\ passed st' = passed st /\
    failed st' = failed st + 1)).
Proof.
  cbn. repeat split.
  destruct (str_truthy (error (result entry))), (found (result entry)); auto.
Qed.

Section RunnerFacts.
Context {E : External}.
Variables (min_match_count : Z) (campaign_id : pyval).

Lemma check_market_cases (product_id : pyval) (logo_path : string)
  (aspect_ratio market : pyval) (st st' : Summary) (w w' : World) :
  check_market min_match_count campaign_id product_id logo_path
    aspect_ratio market st w = (Ok st', w') ->
  st' = st \/ exists entry, st' = record_result st entry.
Proof.
  unfold check_market. intros H.
  bind_inv H as market_id w1 H1. bind_inv H as [|] w2 H2; cbn [negb] in H.
  - bind_inv H as res w3 H3. apply ret_inv in H. destruct H as [-> _].
    right. eauto.
  - apply ret_inv in H. destruct H as [-> _]. now left.
Qed.

Lemma check_market_tallied (product_id : pyval) (logo_path : string)
  (aspect_ratio market : pyval) (st st' : Summary) (w w' : World) :
  check_market min_match_count campaign_id product_id logo_path
    aspect_ratio market st w = (Ok st', w') ->
  tallied st /\ load_error st = None ->
  tallied st' /\ load_error st' = None.
Proof.
  intros H [Ht He].
  destruct (check_market_cases _ _ _ _ _ _ _ _ H) as [-> | [entry ->]].
  - now split.
  - split; [now apply record_result_tallied | exact He].
Qed.

Lemma check_aspect_ratio_tallied (product_id : pyval) (logo_path : string)
  (markets aspect_ratio : pyval) (st st' : Summary) (w w' : World) :
  check_aspect_ratio min_match_count campaign_id product_id logo_path
    markets aspect_ratio st w = (Ok st', w') ->
  tallied st /\ load_error st = None ->
  tallied st' /\ load_error st' = None.
Proof.
  unfold check_aspect_ratio. intros H Hst.
  bind_inv H as market_list w1 H1.
  eapply (for_each_invariant (fun s => tallied s /\ load_error s = None));
      [| exact H | exact Hst].
  intros market s0 w0 s1 w2. apply check_market_tallied.
Qed.

Lemma check_product_tallied (markets aspect_ratios product : pyval)
  (st st' : Summary) (w w' : World) :
  check_product min_match_count campaign_id markets aspect_ratios
    product st w = (Ok st', w') ->
  tallied st /\ load_error st = None ->
  tallied st' /\ load_error st' = None.
Proof.
  unfold check_product. intros H Hst.
  bind_inv H as product_id w1 H1. bind_inv H as logo_filename w2 H2.
  destruct (py_truthy logo_filename); cbn [negb] in H.
  - bind_inv H as ratio_list w3 H3.
    eapply (for_each_invariant (fun s => tallied s /\ load_error s = None));
      [| exact H | exact Hst].
    intros ratio s0 w0 s1 w4. apply check_aspect_ratio_tallied.
  - apply ret_inv in H. destruct H as [-> _]. exact Hst.
Qed.

Lemma check_market_entries (product_id : pyval) (logo : string)
  (aspect_ratio market : pyval) (st st' : Summary) (w w' : World) :
  (exists logo_filename,
      py_truthy logo_filename = true /\
      logo = "input/assets/" ++ py_str logo_filename) ->
  check_market min_match_count campaign_id product_id logo
    aspect_ratio market st w = (Ok st', w') ->
  Forall from_checked_image (results st) ->
  Forall from_checked_image (results st').
Proof.
  intros Hlogo H Hst. unfold check_market in H.
  bind_inv H as mid w1 H1. bind_inv H as [|] w2 H2; cbn [negb] in H.
  - bind_inv H as res w3 H3. apply ret_inv in H. destruct H as [-> _].
    cbn [record_result results]. apply Forall_app. split; [exact Hst|].
    constructor; [|constructor].
    apply lift_Ok_world in H1. subst w1.
    split; cbn [image_path logo_path]; [eauto | exact Hlogo].
  - apply ret_inv in H. destruct H as [-> _]. exact Hst.
Qed.

Lemma check_product_entries (markets aspect_ratios product : pyval)
  (st st' : Summary) (w w' : World) :
  check_product min_match_count campaign_id markets aspect_ratios
    product st w = (Ok st', w') ->
  Forall from_checked_image (results st) ->
  Forall from_checked_image (results st').
Proof.
  unfold check_product. intros H Hst.
  bind_inv H as pid w1 H1. bind_inv H as logo_filename w2 H2.
  destruct (py_truthy logo_filename) eqn:Hlogo; cbn [negb] in H.
  - bind_inv H as ratio_list w3 H3.
    eapply (for_each_invariant
              (fun s => Forall from_checked_image (results s)));
      [| exact H | exact Hst].
    intros ratio s0 w0 s1 w4 Hr Hs0. unfold check_aspect_ratio in Hr.
    bind_inv Hr as market_list w5 H5.
    eapply (for_each_invariant
              (fun s => Forall from_checked_image (results s)));
      [| exact Hr | exact Hs0].
    intros market s2 w6 s3 w7. apply check_market_entries. eauto.
  - apply ret_inv in H. destruct H as [-> _]. exact Hst.
Qed.

Lemma lacks_logo_None (product : pyval) :
  lacks_logo product -> logo_of product = Ok PNone.
Proof.
  intros (entries & -> & [H | (assets & H & Hl)]);
    unfold logo_of, py_get; rewrite H; [reflexivity|].
  now rewrite Hl.
Qed.

Lemma check_product_skip (markets aspect_ratios product v : pyval)
  (st : Summary) (w : World) :
  logo_of product = Ok v ->
  py_truthy v = false ->
  check_product min_match_count campaign_id markets aspect_ratios
    product st w = (Ok st, w).
Proof.
  intros Hl Hv. unfold check_product, bind, lift.
  assert (Hid : exists pid, py_get product "id" PNone = Ok pid).
  { unfold logo_of in Hl. destruct product; try discriminate.
    unfold py_get. destruct (lookup entries "id"); eauto. }
  destruct Hid as [pid ->]. rewrite Hl, Hv. reflexivity.
Qed.

End RunnerFacts.

(* ================================================================== *)
(** * The claims about check_logo_in_image *)

Section LogoClaims.
Context {E : External}.
Variables (campaign_image_path logo_path : string).
Variables (min_match_count : Z) (good_match_threshold : float).

Local Abbreviation check :=
  (check_logo_in_image campaign_image_path logo_path
     min_match_count good_match_threshold).

(** C1.  A result whose [error] is set has [found = False],
    [match_count = 0] and [confidence = 0.0]. *)
Theorem error_implies_not_found (w w' : World) (res : ComplianceResult) :
  check w = (Ok res, w') ->
  error res <> None ->
  found res = false /\ match_count res = 0 /\ confidence res = zero.
Proof.
  intros H Herr.
  destruct (check_logo_failure _ _ _ _ _ _ _ H Herr) as [msg ->].
  repeat split.
Qed.

(** C2, as amended.  In a result without error the confidence is the
    specification's ratio [min(match_count / max(1, n), 1.0)] rounded to
    three decimal places when the logo has [n > 0] keypoints, it is [0.0]
    when the logo has none, and it lies between [0.0] and [1.0]. *)
Theorem confidence_rounded_ratio (w w' : World) (res : ComplianceResult) :
  check w = (Ok res, w') ->
  error res = None ->
  exists f matches w2,
    matched campaign_image_path logo_path w f matches w2 /\
    let n := Z.of_nat (List.length (kp1 f)) in
    (0 < n ->
     confidence res = py_round (spec_confidence (match_count res) n) 3) /\
    (n = 0 -> confidence res = zero) /\
    fle zero (confidence res) = true /\ fle (confidence res) one = true.
Proof.
  intros H Herr.
  destruct (check_logo_success _ _ _ _ _ _ _ H Herr)
    as (f & matches & w2 & Hm & Hdec).
  exists f, matches, w2. split; [exact Hm|].
  destruct (decide_returns f matches min_match_count good_match_threshold w2)
    as (loc & w3 & Hret & _).
  rewrite Hret in Hdec. injection Hdec as <- <-. cbn [confidence match_count].
  set (mc := Z.of_nat (List.length (ratio_test good_match_threshold matches []))).
  set (n := Z.of_nat (List.length (kp1 f))).
  cbv zeta. split; [|split].
  - intros Hn. unfold confidence_score, spec_confidence.
    apply Z.ltb_lt in Hn as Hn'. rewrite Hn'.
    now rewrite Z.max_r by lia.
  - intros Hn. unfold confidence_score. rewrite Hn. reflexivity.
  - assert (Hu : unit_float (confidence_score mc n))
      by (apply confidence_score_unit; subst mc; lia).
    rewrite (py_round_unit _ Hu).
    apply thousandth_in_unit_interval, thousandths_bounds, Hu.
Qed.

(** C3.  In a result without error, [found] is true exactly when
    [match_count >= min_match_count]; the default threshold is 10. *)
Theorem found_iff_enough_matches (w w' : World) (res : ComplianceResult) :
  check w = (Ok res, w') ->
  error res = None ->
  (found res = true <-> min_match_count <= match_count res) /\
  default_min_match_count = 10.
Proof.
  intros H Herr.
  destruct (check_logo_success _ _ _ _ _ _ _ H Herr)
    as (f & matches & w2 & Hm & Hdec).
  destruct (decide_returns f matches min_match_count good_match_threshold w2)
    as (loc & w3 & Hret & _).
  rewrite Hret in Hdec. injection Hdec as <- <-. cbn [found match_count].
  split; [apply Z.leb_le | reflexivity].
Qed.


(** C7.  A location is reported only for a found logo with at least four
    good matches; and when, for such a logo, [findHomography] returns no
    model or raises, the function still returns a result without error,
    with the verdict given by the match count and no location. *)
Theorem location_only_when_found (w : World) :
  (forall res w',
      check w = (Ok res, w') ->
      location res <> None ->
      found res = true /\ 4 <= match_count res) /\
  (forall f matches w2 src_pts dst_pts w3,
      matched campaign_image_path logo_path w f matches w2 ->
      let good_matches := ratio_test good_match_threshold matches [] in
      let n := Z.of_nat (List.length good_matches) in
      min_match_count <= n -> 4 <= n ->
      matched_points (kp1 f) (map queryIdx good_matches) = Ok src_pts ->
      matched_points (kp2 f) (map trainIdx good_matches) = Ok dst_pts ->
      (findHomography src_pts dst_pts w2 = (Ok None, w3) \/
       exists msg, findHomography src_pts dst_pts w2 = (Raise msg, w3)) ->
      exists res,
        check w = (Ok res, w3) /\
        error res = None /\
        match_count res = n /\
        found res = (min_match_count <=? match_count res) /\
        found res = true /\
        location res = None).
Proof.
  split.
  - intros res w' H Hloc.
    destruct (error res) as [msg |] eqn:Herr.
    + assert (Hne : error res <> None) by congruence.
      destruct (check_logo_failure _ _ _ _ _ _ _ H Hne) as [m ->].
      now cbn in Hloc.
    + destruct (check_logo_success _ _ _ _ _ _ _ H Herr)
        as (f & matches & w2 & Hm & Hdec).
      destruct (decide_returns f matches min_match_count
                  good_match_threshold w2) as (loc & w3 & Hret & Hl).
      rewrite Hret in Hdec. injection Hdec as <- <-.
      cbn [found match_count location] in *. exact (Hl Hloc).
  - intros f matches w2 src_pts dst_pts w3 Hm good_matches n Hmin H4 Hs Hd Hfit.
    rewrite (check_logo_forward _ _ min_match_count good_match_threshold
               _ _ _ _ Hm).
    unfold decide. fold good_matches. fold n.
    assert (Hc : (min_match_count <=? n) && (4 <=? n) = true).
    { apply andb_true_iff. split; apply Z.leb_le; assumption. }
    rewrite Hc.
    assert (Hloc : try_except (find_location f good_matches)
                     (fun _ => ret None) w2 = (Ok None, w3)).
    { unfold try_except, find_location, bind, lift.
      rewrite Hs, Hd.
      destruct Hfit as [Hfit | [msg Hfit]]; rewrite Hfit; reflexivity. }
    rewrite (bind_Ok _ _ _ _ _ Hloc).
    eexists. split; [reflexivity|]. cbn [error match_count found location].
    repeat split. apply Z.leb_le. exact Hmin.
Qed.

(** C10, as amended.  In a result without error for a logo with [n > 0]
    keypoints the confidence is [round(ratio, 3)] for
    [ratio = min(match_count / n, 1.0)]: it is the float [k / 1000] of a
    number of thousandths [k] that differs from the ratio by at most 0.0005;
    the float itself is within [2^-54] of that decimal, so the reported
    confidence differs from the ratio by at most [0.0005 + 2^-54]. *)
Theorem confidence_rounded_to_three_places (w w' : World)
  (res : ComplianceResult) :
  check w = (Ok res, w') ->
  error res = None ->
  exists f matches w2,
    matched campaign_image_path logo_path w f matches w2 /\
    let n := Z.of_nat (List.length (kp1 f)) in
    (0 < n ->
     let ratio := py_min (int_truediv (match_count res) n) one in
     confidence res = py_round ratio 3 /\
     exists k,
       0 <= k <= 1000 /\
       confidence res = int_truediv k 1000 /\
       (Qabs ((k # 1000) - B2Q ratio) <= 1 # 2000)%Q /\
       (Qabs (B2Q (confidence res) - (k # 1000))
        <= 1 # 18014398509481984)%Q /\
       (Qabs (B2Q (confidence res) - B2Q ratio)
        <= (1 # 2000) + (1 # 18014398509481984))%Q).
Proof.
  intros H Herr.
  destruct (check_logo_success _ _ _ _ _ _ _ H Herr)
    as (f & matches & w2 & Hm & Hdec).
  exists f, matches, w2. split; [exact Hm|].
  destruct (decide_returns f matches min_match_count good_match_threshold w2)
    as (loc & w3 & Hret & _).
  rewrite Hret in Hdec. injection Hdec as <- <-. cbn [confidence match_count].
  set (mc := Z.of_nat (List.length (ratio_test good_match_threshold matches []))).
  set (n := Z.of_nat (List.length (kp1 f))).
  cbv zeta. intros Hn.
  assert (Hu : unit_float (confidence_score mc n))
    by (apply confidence_score_unit; subst mc; lia).
  assert (Hs : confidence_score mc n = py_min (int_truediv mc n) one).
  { unfold confidence_score. apply Z.ltb_lt in Hn. now rewrite Hn. }
  rewrite Hs in *. split; [reflexivity|].
  exists (thousandths (py_min (int_truediv mc n) one)).
  pose proof (thousandths_bounds _ Hu) as Hk.
  rewrite (py_round_unit _ Hu).
  pose proof (thousandths_error _ Hu) as Herr1.
  pose proof (thousandth_representation _ Hk) as Herr2.
  repeat split; try lia; try assumption.
  exact (Qabs_diff_triangle _ _ _ _ _ Herr1 Herr2).
Qed.

End LogoClaims.

(* ================================================================== *)
(** * The claims about check_campaign_compliance *)

Section RunnerClaims.
Context {E : External}.

(** C4, as amended.  When the existence test of the campaign file answers
    [False] the function returns, after this one test and without raising,
    the summary with [total_checked = 0], [errors = 1] and no results; when
    the file exists but cannot be opened or parsed, the exception of the
    loader reaches the caller; and so does an exception of the existence
    test itself. *)
Theorem missing_campaign_file (campaign_file : string) (min_match_count : Z)
  (verbose : bool) (w w1 : World) :
  let campaign_path := campaign_path_of campaign_file in
  (path_exists campaign_path w = (Ok false, w1) ->
   check_campaign_compliance campaign_file min_match_count verbose w =
   (Ok {| total_checked := 0; passed := 0; failed := 0; errors := 1;
          results := [];
          load_error :=
            Some ("Campaign file not found: " ++ path_str campaign_path) |},
    w1)) /\
  (forall msg w2,
      path_exists campaign_path w = (Ok true, w1) ->
      safe_load campaign_path w1 = (Raise msg, w2) ->
      check_campaign_compliance campaign_file min_match_count verbose w =
      (Raise msg, w2)) /\
  (forall msg,
      path_exists campaign_path w = (Raise msg, w1) ->
      check_campaign_compliance campaign_file min_match_count verbose w =
      (Raise msg, w1)).
Proof.
  intros campaign_path. split; [|split].
  - intros Hex. unfold check_campaign_compliance. fold campaign_path.
    rewrite (bind_Ok _ _ _ _ _ Hex). reflexivity.
  - intros msg w2 Hex Hload. unfold check_campaign_compliance.
    fold campaign_path.
    rewrite (bind_Ok _ _ _ _ _ Hex). cbn [negb].
    now rewrite (bind_Raise _ _ _ _ _ Hload).
  - intros msg Hex. unfold check_campaign_compliance. fold campaign_path.
    now rewrite (bind_Raise _ _ _ _ _ Hex).
Qed.

(** C5.  A product without an [assets.logo] entry (or with an empty one)
    leaves the counters and the results as they were, and so does a
    combination whose image file does not exist; the loop over the products
    gives the same summary when such a product is taken out of the list. *)
Theorem skipped_combinations_contribute_nothing (min_match_count : Z)
  (campaign_id markets aspect_ratios : pyval) :
  (forall product st w,
      lacks_logo product ->
      check_product min_match_count campaign_id markets aspect_ratios
        product st w = (Ok st, w)) /\
  (forall product logo_filename st w,
      logo_of product = Ok logo_filename ->
      py_truthy logo_filename = false ->
      check_product min_match_count campaign_id markets aspect_ratios
        product st w = (Ok st, w)) /\
  (forall product_id logo_path aspect_ratio market market_id st w w1,
      py_get market "market_id" PNone = Ok market_id ->
      path_exists
        (mkPath (image_path_of campaign_id product_id aspect_ratio market_id))
        w = (Ok false, w1) ->
      check_market min_match_count campaign_id product_id logo_path
        aspect_ratio market st w = (Ok st, w1)) /\
  (forall before product after logo_filename st w,
      logo_of product = Ok logo_filename ->
      py_truthy logo_filename = false ->
      for_each (before ++ product :: after)
        (check_product min_match_count campaign_id markets aspect_ratios)
        st w =
      for_each (before ++ after)
        (check_product min_match_count campaign_id markets aspect_ratios)
        st w) /\
  (forall campaign_file verbose w w' s,
      check_campaign_compliance campaign_file min_match_count verbose w
      = (Ok s, w') ->
      Forall from_checked_image (results s)).
Proof.
  split; [|split; [|split; [|split]]].
  - intros product st w Hl.
    now apply check_product_skip with (v := PNone); [apply lacks_logo_None|].
  - intros product v st w Hl Hv. now apply check_product_skip with (v := v).
  - intros product_id logo_path aspect_ratio market market_id st w w1 Hm Hex.
    unfold check_market. unfold bind at 1. unfold lift. rewrite Hm.
    rewrite (bind_Ok _ _ _ _ _ Hex). reflexivity.
  - intros before product after v st w Hl Hv.
    rewrite !for_each_app. unfold bind.
    destruct (for_each before _ st w) as [[st1 | msg] w1]; [|reflexivity].
    cbn [for_each]. unfold bind.
    now rewrite (check_product_skip _ _ _ _ _ v st1 w1 Hl Hv).
  - intros campaign_file verbose w w' s H.
    unfold check_campaign_compliance in H.
    bind_inv H as [|] w1 H1; cbn [negb] in H.
    2:{ apply ret_inv in H. destruct H as [-> _]. constructor. }
    bind_inv H as data w2 H2. bind_inv H as campaign w3 H3.
    bind_inv H as products w4 H4. bind_inv H as cid w5 H5.
    bind_inv H as mkts w6 H6. bind_inv H as creative w7 H7.
    bind_inv H as ratios w8 H8. bind_inv H as u w9 H9.
    bind_inv H as product_list w10 H10.
    eapply (for_each_invariant
              (fun s => Forall from_checked_image (results s)));
      [| exact H | constructor].
    intros product s0 w0 s1 w11. apply check_product_entries.
Qed.

(** C8, as amended.  When both images were read and one of them has no
    descriptors, [check_logo_in_image] returns (it does not raise) the
    failure record whose [error] is exactly
    ["Not enough features detected in images"], and the runner counts the
    image under [errors]. *)
Theorem not_enough_features_is_an_error (min_match_count : Z)
  (logo_path : string) (f : Features) (w w1 : World) :
  let msg := "Not enough features detected in images" in
  (des1 f = None \/ des2 f = None) ->
  (forall campaign_image_path good_match_threshold,
      detect_features campaign_image_path logo_path w = (Ok (inr f), w1) ->
      check_logo_in_image campaign_image_path logo_path min_match_count
        good_match_threshold w = (Ok (failure msg), w1)) /\
  (forall campaign_id product_id aspect_ratio market market_id st w0,
      let image_path :=
        image_path_of campaign_id product_id aspect_ratio market_id in
      py_get market "market_id" PNone = Ok market_id ->
      path_exists (mkPath image_path) w0 = (Ok true, w) ->
      detect_features image_path logo_path w = (Ok (inr f), w1) ->
      exists st',
        check_market min_match_count campaign_id product_id logo_path
          aspect_ratio market st w0 = (Ok st', w1) /\
        total_checked st' = total_checked st + 1 /\
        errors st' = errors st + 1 /\
        passed st' = passed st /\
        failed st' = failed st /\
        exists entry,
          results st' = (results st ++ [entry])%list /\
          result entry = failure msg).
Proof.
  intros msg Hdes.
  assert (Hcheck : forall c thr,
             detect_features c logo_path w = (Ok (inr f), w1) ->
             check_logo_in_image c logo_path min_match_count thr w =
             (Ok (failure msg), w1)).
  { intros c thr Hd. unfold check_logo_in_image, try_except, check_logo_body.
    rewrite (bind_Ok _ _ _ _ _ Hd).
    destruct Hdes as [-> | ->]; [reflexivity|].
    destruct (des1 f); reflexivity. }
  split; [exact Hcheck|].
  intros campaign_id product_id aspect_ratio market market_id st w0 image_path
    Hm Hex Hd.
  eexists. split.
  - unfold check_market. unfold bind at 1. unfold lift. rewrite Hm.
    fold image_path. rewrite (bind_Ok _ _ _ _ _ Hex). cbn [negb].
    rewrite (bind_Ok _ _ _ _ _ (Hcheck image_path _ Hd)). reflexivity.
  - cbn. repeat split. eexists. split; reflexivity.
Qed.

(** C9.  A summary returned after the campaign file was loaded satisfies
    [total_checked = passed + failed + errors] and has one result per
    checked image.  A combination whose image exists is checked: the step
    of the innermost loop appends the entry of its detection result, adds
    one to [total_checked] and adds one to exactly one of [errors] (the
    result has an error), [passed] (no error, found) and [failed] (no
    error, not found).  And every step that returns either skipped or did
    just that. *)
Theorem summary_counts_add_up (campaign_file : string) (min_match_count : Z)
  (verbose : bool) (w w' : World) (s : Summary) :
  check_campaign_compliance campaign_file min_match_count verbose w
  = (Ok s, w') ->
  load_error s = None ->
  (total_checked s = passed s + failed s + errors s /\
   Z.of_nat (List.length (results s)) = total_checked s) /\
  (forall campaign_id product_id logo_path aspect_ratio market market_id
          st w1 w2,
      let image_path :=
        image_path_of campaign_id product_id aspect_ratio market_id in
      py_get market "market_id" PNone = Ok market_id ->
      path_exists (mkPath image_path) w1 = (Ok true, w2) ->
      exists res w3 st',
        check_logo_in_image image_path logo_path min_match_count
          default_good_match_threshold w2 = (Ok res, w3) /\
        check_market min_match_count campaign_id product_id logo_path
          aspect_ratio market st w1 = (Ok st', w3) /\
        results st' =
          (results st ++
           [{| product_id := product_id; aspect_ratio := aspect_ratio;
               market_id := market_id; image_path := image_path;
               logo_path := logo_path; result := res |}])%list /\
        total_checked st' = total_checked st + 1 /\
        errors st' =
          errors st + (if str_truthy (error res) then 1 else 0) /\
        passed st' =
          passed st + (if str_truthy (error res) then 0
                       else if found res then 1 else 0) /\
        failed st' =
          failed st + (if str_truthy (error res) then 0
                       else if found res then 0 else 1)) /\
  (forall campaign_id product_id logo_path aspect_ratio market st st' w1 w2,
      check_market min_match_count campaign_id product_id logo_path
        aspect_ratio market st w1 = (Ok st', w2) ->
      st' = st \/
      exists entry,
        results st' = (results st ++ [entry])%list /\
        total_checked st' = total_checked st + 1 /\
        ((errors st' = errors st + 1 /\ passed st' = passed st /\
          failed st' = failed st) \/
         (errors st' = errors st /\ passed st' = passed st + 1 /\
          failed st' = failed st) \/
         (errors st' = errors st /\ passed st' = passed st /\
          failed st' = failed st + 1))).
Proof.
  intros H Hload. split; [|split].
  - unfold check_campaign_compliance in H.
    bind_inv H as [|] w1 H1; cbn [negb] in H.
    2:{ apply ret_inv in H. destruct H as [-> _]. discriminate. }
    bind_inv H as data w2 H2. bind_inv H as campaign w3 H3.
    bind_inv H as products w4 H4. bind_inv H as campaign_id w5 H5.
    bind_inv H as markets w6 H6. bind_inv H as creative w7 H7.
    bind_inv H as aspect_ratios w8 H8. bind_inv H as u w9 H9.
    bind_inv H as product_list w10 H10.
    assert (Hinv : tallied s /\ load_error s = None).
    { eapply (for_each_invariant (fun s => tallied s /\ load_error s = None));
        [| exact H |].
      - intros product s0 w0 s1 w11. apply check_product_tallied.
      - repeat split. }
    exact (proj1 Hinv).
  - intros campaign_id product_id logo_path aspect_ratio market market_id
      st w1 w2 image_path Hmid Hex.
    destruct (check_logo_returns image_path logo_path min_match_count
                default_good_match_threshold w2) as (res & w3 & Hres).
    exists res, w3. eexists. split; [exact Hres|]. split.
    + unfold check_market. unfold bind at 1. unfold lift. rewrite Hmid.
      fold image_path. rewrite (bind_Ok _ _ _ _ _ Hex). cbn [negb].
      rewrite (bind_Ok _ _ _ _ _ Hres). reflexivity.
    + cbn [record_result results total_checked errors passed failed result].
      destruct (str_truthy (error res)), (found res); repeat split; lia.
  - intros campaign_id product_id logo_path aspect_ratio market st st' w1 w2 Hm.
    destruct (check_market_cases _ _ _ _ _ _ _ _ _ _ Hm) as [-> | [entry ->]].
    + now left.
    + right. exists entry.
      destruct (record_result_one_counter st entry) as (Ht & Hr & Hc).
      auto.
Qed.

End RunnerClaims.

(* ================================================================== *)
(** * The claims in the static worlds *)

Import Fixture.

(** The claim C1 at a campaign image that is not on disk. *)
Lemma error_implies_not_found_witness :
  let E := external no_image in
  let res := failure ("Campaign image not found: " ++ image_file) in
  check_logo_in_image image_file logo_file 10 default_good_match_threshold tt
  = (Ok res, tt) /\
  error res <> None /\
  found res = false /\ match_count res = 0 /\ confidence res = zero.
Proof.
  intros E res.
  assert (Hrun : check_logo_in_image image_file logo_file 10
                   default_good_match_threshold tt = (Ok res, tt))
    by reflexivity.
  assert (Herr : error res <> None) by discriminate.
  split; [exact Hrun|]. split; [exact Herr|].
  exact (error_implies_not_found image_file logo_file 10
           default_good_match_threshold tt tt res Hrun Herr).
Defined.

(** The amended claim C2 at a logo of three keypoints with one good match:
    the confidence is 0.333. *)
Lemma confidence_rounded_ratio_witness :
  let E := external sparse in
  check_logo_in_image image_file logo_file 10 default_good_match_threshold tt
  = (Ok sparse_result, tt) /\
  error sparse_result = None /\
  exists f matches w2,
    matched image_file logo_file tt f matches w2 /\
    let n := Z.of_nat (List.length (kp1 f)) in
    (0 < n ->
     confidence sparse_result
     = py_round (spec_confidence (match_count sparse_result) n) 3) /\
    (n = 0 -> confidence sparse_result = zero) /\
    fle zero (confidence sparse_result) = true /\
    fle (confidence sparse_result) one = true.
Proof.
  intros E.
  assert (Hrun : check_logo_in_image image_file logo_file 10
                   default_good_match_threshold tt = (Ok sparse_result, tt))
    by (vm_compute; reflexivity).
  split; [exact Hrun|]. split; [reflexivity|].
  exact (confidence_rounded_ratio image_file logo_file 10
           default_good_match_threshold tt tt sparse_result Hrun eq_refl).
Defined.

(** C2 as stated fails: with one good match for a logo of three keypoints
    the function returns the float 0.333, and
    [min(1 / max(1, 3), 1.0)] is the float nearest to one third. *)
Lemma confidence_not_exact_ratio :
  let E := external sparse in
  exists res f matches,
    check_logo_in_image image_file logo_file 10 default_good_match_threshold tt
    = (Ok res, tt) /\
    error res = None /\
    matched image_file logo_file tt f matches tt /\
    Z.of_nat (List.length (kp1 f)) = 3 /\
    match_count res = 1 /\
    confidence res = int_truediv 333 1000 /\
    spec_confidence 1 3 = int_truediv 1 3 /\
    confidence res
    <> spec_confidence (match_count res) (Z.of_nat (List.length (kp1 f))).
Proof.
  intros E. exists sparse_result.
  eexists. eexists.
  split; [vm_compute; reflexivity|]. split; [reflexivity|].
  split.
  { exists tt, logo_file, image_file. cbv. repeat split; reflexivity. }
  split; [reflexivity|]. split; [reflexivity|]. split; [reflexivity|].
  split; [vm_compute; reflexivity|].
  vm_compute. discriminate.
Qed.

(** The claim C3 at twelve good matches and the default threshold. *)
Lemma found_iff_enough_matches_witness :
  let E := external (dense (Ok (Some tt))) in
  let res := dense_result (Some (10, 10, 40, 60)) in
  check_logo_in_image image_file logo_file default_min_match_count
    default_good_match_threshold tt = (Ok res, tt) /\
  error res = None /\
  (found res = true <-> default_min_match_count <= match_count res) /\
  default_min_match_count = 10.
Proof.
  intros E res.
  assert (Hrun : check_logo_in_image image_file logo_file
                   default_min_match_count default_good_match_threshold tt
                 = (Ok res, tt))
    by (vm_compute; reflexivity).
  split; [exact Hrun|]. split; [reflexivity|].
  exact (found_iff_enough_matches image_file logo_file default_min_match_count
           default_good_match_threshold tt tt res Hrun eq_refl).
Defined.


(** The claim C7: a located logo has twelve good matches; and when the fit
    finds no model the logo is still found, without a location. *)
Lemma location_only_when_found_witness :
  (let E := external (dense (Ok (Some tt))) in
   let res := dense_result (Some (10, 10, 40, 60)) in
   check_logo_in_image image_file logo_file 10 default_good_match_threshold tt
   = (Ok res, tt) /\
   location res <> None /\
   found res = true /\ 4 <= match_count res) /\
  (let E := external (dense (Ok None)) in
   exists res,
     check_logo_in_image image_file logo_file 10 default_good_match_threshold
       tt = (Ok res, tt) /\
     error res = None /\
     match_count res = 12 /\
     found res = (10 <=? match_count res) /\
     found res = true /\
     location res = None).
Proof.
  split.
  - intros E res.
    assert (Hrun : check_logo_in_image image_file logo_file 10
                     default_good_match_threshold tt = (Ok res, tt))
      by (vm_compute; reflexivity).
    assert (Hloc : location res <> None) by discriminate.
    split; [exact Hrun|]. split; [exact Hloc|].
    exact (proj1 (location_only_when_found image_file logo_file 10
                    default_good_match_threshold tt) res tt Hrun Hloc).
  - intros E.
    refine (proj2 (location_only_when_found image_file logo_file 10
                     default_good_match_threshold tt)
              {| kp1 := keypoints_of (dense (Ok None)) logo_file;
                 des1 := Some logo_file;
                 kp2 := keypoints_of (dense (Ok None)) image_file;
                 des2 := Some image_file;
                 logo_gray := logo_file |}
              (knn (dense (Ok None))) tt
              (map (fun i => (float_of_int i, float_of_int (2 * i))) twelve)
              (map (fun i => (float_of_int i, float_of_int (2 * i))) twelve)
              tt _ _ _ _ _ _).
    + exists tt, logo_file, image_file. repeat split; reflexivity.
    + vm_compute. discriminate.
    + vm_compute. discriminate.
    + vm_compute. reflexivity.
    + vm_compute. reflexivity.
    + left. reflexivity.
Defined.

(** The amended claim C10 at one good match for three keypoints: the ratio,
    a third, is reported as 333 thousandths, which is not the ratio. *)
Lemma confidence_rounded_to_three_places_witness :
  let E := external sparse in
  check_logo_in_image image_file logo_file 10 default_good_match_threshold tt
  = (Ok sparse_result, tt) /\
  error sparse_result = None /\
  confidence sparse_result <> py_min (int_truediv 1 3) one /\
  exists f matches w2,
    matched image_file logo_file tt f matches w2 /\
    let n := Z.of_nat (List.length (kp1 f)) in
    (0 < n ->
     let ratio := py_min (int_truediv (match_count sparse_result) n) one in
     confidence sparse_result = py_round ratio 3 /\
     exists k,
       0 <= k <= 1000 /\
       confidence sparse_result = int_truediv k 1000 /\
       (Qabs ((k # 1000) - B2Q ratio) <= 1 # 2000)%Q /\
       (Qabs (B2Q (confidence sparse_result) - (k # 1000))
        <= 1 # 18014398509481984)%Q /\
       (Qabs (B2Q (confidence sparse_result) - B2Q ratio)
        <= (1 # 2000) + (1 # 18014398509481984))%Q).
Proof.
  intros E.
  assert (Hrun : check_logo_in_image image_file logo_file 10
                   default_good_match_threshold tt = (Ok sparse_result, tt))
    by (vm_compute; reflexivity).
  split; [exact Hrun|]. split; [reflexivity|].
  split; [vm_compute; discriminate|].
  exact (confidence_rounded_to_three_places image_file logo_file 10
           default_good_match_threshold tt tt sparse_result Hrun eq_refl).
Defined.

(** C10 as stated fails: with one good match for a logo of sixteen
    keypoints the ratio is the float 0.0625, a tie between 0.062 and 0.063;
    the function returns the float of 0.062, which lies below 0.062, so the
    two floats differ by more than 0.0005 (in exact arithmetic and in the
    float subtraction [ratio - confidence]). *)
Lemma rounded_confidence_off_by_more_than_half_a_thousandth :
  let E := external Scenes.one_of_sixteen in
  exists res f matches,
    check_logo_in_image image_file logo_file 10 default_good_match_threshold tt
    = (Ok res, tt) /\
    error res = None /\
    matched image_file logo_file tt f matches tt /\
    Z.of_nat (List.length (kp1 f)) = 16 /\
    match_count res = 1 /\
    py_min (int_truediv (match_count res) 16) one = int_truediv 1 16 /\
    confidence res = int_truediv 62 1000 /\
    (1 # 2000
     < Qabs (B2Q (confidence res)
             - B2Q (py_min (int_truediv (match_count res) 16) one)))%Q /\
    flt (int_truediv 5 10000)
      (SFsub prec emax (py_min (int_truediv (match_count res) 16) one)
         (confidence res)) = true.
Proof.
  intros E. exists Scenes.one_of_sixteen_result.
  eexists. eexists.
  split; [vm_compute; reflexivity|]. split; [reflexivity|].
  split.
  { exists tt, logo_file, image_file. cbv. repeat split; reflexivity. }
  split; [reflexivity|]. split; [reflexivity|].
  split; [vm_compute; reflexivity|]. split; [reflexivity|].
  split; vm_compute; reflexivity.
Qed.

(** The amended claim C4: a campaign file that is not on disk, one that is
    on disk but is not valid YAML, and a name the file system refuses. *)
Lemma missing_campaign_file_witness :
  let E := external campaign in
  (path_exists (campaign_path_of "spring.yaml") tt = (Ok false, tt) /\
   check_campaign_compliance "spring.yaml" 10 true tt =
   (Ok {| total_checked := 0; passed := 0; failed := 0; errors := 1;
          results := [];
          load_error :=
            Some "Campaign file not found: input/campaigns/spring.yaml" |},
    tt)) /\
  (path_exists (campaign_path_of "broken.yaml") tt = (Ok true, tt) /\
   safe_load (campaign_path_of "broken.yaml") tt =
   (Raise "while parsing a block mapping", tt) /\
   check_campaign_compliance "broken.yaml" 10 true tt =
   (Raise "while parsing a block mapping", tt)) /\
  (let E := Scenes.long_names in
   path_exists (campaign_path_of Scenes.long_name) tt =
   (Raise "[Errno 36] File name too long", tt) /\
   check_campaign_compliance Scenes.long_name 10 true tt =
   (Raise "[Errno 36] File name too long", tt)).
Proof.
  intros E. split; [|split].
  - assert (Hex : path_exists (campaign_path_of "spring.yaml") tt
                  = (Ok false, tt)) by reflexivity.
    split; [exact Hex|].
    exact (proj1 (missing_campaign_file "spring.yaml" 10 true tt tt) Hex).
  - assert (Hex : path_exists (campaign_path_of "broken.yaml") tt
                  = (Ok true, tt)) by reflexivity.
    assert (Hload : safe_load (campaign_path_of "broken.yaml") tt
                    = (Raise "while parsing a block mapping", tt))
      by reflexivity.
    split; [exact Hex|]. split; [exact Hload|].
    exact (proj1 (proj2 (missing_campaign_file "broken.yaml" 10 true tt tt))
             _ tt Hex Hload).
  - intros E'.
    assert (Hex : path_exists (campaign_path_of Scenes.long_name) tt
                  = (Raise "[Errno 36] File name too long", tt))
      by (vm_compute; reflexivity).
    split; [exact Hex|].
    exact (proj2 (proj2 (@missing_campaign_file E' Scenes.long_name 10 true
                           tt tt)) _ Hex).
Defined.

(** C4 as stated fails for a file that cannot be parsed: the exception of
    the loader reaches the caller and no summary is returned. *)
Lemma unparsable_campaign_raises :
  let E := external campaign in
  path_exists (campaign_path_of "broken.yaml") tt = (Ok true, tt) /\
  safe_load (campaign_path_of "broken.yaml") tt =
  (Raise "while parsing a block mapping", tt) /\
  check_campaign_compliance "broken.yaml" 10 true tt =
  (Raise "while parsing a block mapping", tt) /\
  ~ (exists s w',
        check_campaign_compliance "broken.yaml" 10 true tt = (Ok s, w') /\
        total_checked s = 0 /\ errors s = 1 /\ results s = []).
Proof.
  intros E.
  assert (Hrun : check_campaign_compliance "broken.yaml" 10 true tt =
                 (Raise "while parsing a block mapping", tt))
    by (vm_compute; reflexivity).
  split; [reflexivity|]. split; [reflexivity|]. split; [exact Hrun|].
  intros (s & w' & H & _). rewrite Hrun in H. discriminate.
Qed.

(** The claim C5 in the campaign of two products: the product without a
    logo and the market whose image was not generated leave the counters
    alone, and the run gives the same summary without that product. *)
Lemma skipped_combinations_contribute_nothing_witness :
  let E := external campaign in
  let markets := PList [market "us"; market "de"] in
  let ratios := PList [PStr "1x1"] in
  let p1 := product "p1" (Some "logo.png") in
  let p2 := product "p2" None in
  (lacks_logo p2 /\
   check_product 10 (PStr "c1") markets ratios p2 campaign_summary tt
   = (Ok campaign_summary, tt)) /\
  (logo_of (product "p2" (Some "")) = Ok (PStr "") /\
   check_product 10 (PStr "c1") markets ratios (product "p2" (Some ""))
     campaign_summary tt
   = (Ok campaign_summary, tt)) /\
  (path_exists
     (mkPath (image_path_of (PStr "c1") (PStr "p1") (PStr "1x1") (PStr "de")))
     tt = (Ok false, tt) /\
   check_market 10 (PStr "c1") (PStr "p1") logo_file (PStr "1x1")
     (market "de") campaign_summary tt = (Ok campaign_summary, tt)) /\
  (for_each ([p1] ++ p2 :: []) (check_product 10 (PStr "c1") markets ratios)
     no_checks tt =
   for_each ([p1] ++ []) (check_product 10 (PStr "c1") markets ratios)
     no_checks tt /\
   for_each [p1; p2] (check_product 10 (PStr "c1") markets ratios)
     no_checks tt = (Ok campaign_summary, tt)).
Proof.
  intros E markets ratios p1 p2.
  pose proof (skipped_combinations_contribute_nothing 10 (PStr "c1")
                markets ratios) as (Hlacks & Hproduct & Hmarket & Hrun & _).
  assert (Hp2 : lacks_logo p2).
  { eexists. split; [reflexivity|]. left. reflexivity. }
  split; [|split; [|split]].
  - split; [exact Hp2|].
    exact (Hlacks p2 campaign_summary tt Hp2).
  - split; [reflexivity|].
    exact (Hproduct (product "p2" (Some "")) (PStr "") campaign_summary tt
             eq_refl eq_refl).
  - split; [reflexivity|].
    exact (Hmarket (PStr "p1") logo_file (PStr "1x1") (market "de")
             (PStr "de") campaign_summary tt tt eq_refl eq_refl).
  - split.
    + exact (Hrun [p1] p2 [] PNone no_checks tt eq_refl eq_refl).
    + vm_compute. reflexivity.
Defined.

(** The amended claim C8 at a blank logo. *)
Lemma not_enough_features_is_an_error_witness :
  let E := external blank_logo in
  let msg := "Not enough features detected in images" in
  let f := {| kp1 := []; des1 := None;
              kp2 := keypoints_of blank_logo image_file;
              des2 := Some image_file; logo_gray := logo_file |} in
  detect_features image_file logo_file tt = (Ok (inr f), tt) /\
  (des1 f = None \/ des2 f = None) /\
  check_logo_in_image image_file logo_file 10 default_good_match_threshold tt
  = (Ok (failure msg), tt) /\
  exists st',
    check_market 10 (PStr "c1") (PStr "p1") logo_file (PStr "1x1")
      (market "us") no_checks tt = (Ok st', tt) /\
    total_checked st' = 1 /\ errors st' = 1 /\
    passed st' = 0 /\ failed st' = 0 /\
    exists entry,
      results st' = [entry] /\ result entry = failure msg.
Proof.
  intros E msg f.
  assert (Hd : detect_features image_file logo_file tt = (Ok (inr f), tt))
    by reflexivity.
  assert (Hdes : des1 f = None \/ des2 f = None) by (left; reflexivity).
  pose proof (not_enough_features_is_an_error 10 logo_file f tt tt Hdes)
    as [Hlogo Hmarket].
  split; [exact Hd|]. split; [exact Hdes|]. split.
  - exact (Hlogo image_file default_good_match_threshold Hd).
  - exact (Hmarket (PStr "c1") (PStr "p1") (PStr "1x1") (market "us")
             (PStr "us") no_checks tt eq_refl eq_refl Hd).
Defined.

(** C8 as stated fails: the message of the result is longer than the one
    the claim gives. *)
Lemma not_enough_features_text_differs :
  let E := external blank_logo in
  exists f res,
    detect_features image_file logo_file tt = (Ok (inr f), tt) /\
    des1 f = None /\
    check_logo_in_image image_file logo_file 10 default_good_match_threshold
      tt = (Ok res, tt) /\
    error res = Some "Not enough features detected in images" /\
    error res <> Some "Not enough features detected".
Proof.
  intros E. eexists. eexists.
  split; [reflexivity|]. split; [reflexivity|].
  split; [reflexivity|]. split; [reflexivity|].
  discriminate.
Qed.

(** The claim C9 in the campaign of two products: one image was checked
    and it failed; the step of the loop for market [us], whose image
    exists, is the one that recorded it. *)
Lemma summary_counts_add_up_witness :
  let E := external campaign in
  let s := campaign_summary in
  let image_path :=
    image_path_of (PStr "c1") (PStr "p1") (PStr "1x1") (PStr "us") in
  check_campaign_compliance "holiday_campaign.yaml" 10 true tt = (Ok s, tt) /\
  load_error s = None /\
  (total_checked s = passed s + failed s + errors s /\
   Z.of_nat (List.length (results s)) = total_checked s) /\
  py_get (market "us") "market_id" PNone = Ok (PStr "us") /\
  path_exists (mkPath image_path) tt = (Ok true, tt) /\
  check_market 10 (PStr "c1") (PStr "p1") logo_file (PStr "1x1")
    (market "us") no_checks tt = (Ok s, tt) /\
  (exists res w3 st',
      check_logo_in_image image_path logo_file 10
        default_good_match_threshold tt = (Ok res, w3) /\
      check_market 10 (PStr "c1") (PStr "p1") logo_file (PStr "1x1")
        (market "us") no_checks tt = (Ok st', w3) /\
      results st' =
        (results no_checks ++
         [{| product_id := PStr "p1"; aspect_ratio := PStr "1x1";
             market_id := PStr "us"; image_path := image_path;
             logo_path := logo_file; result := res |}])%list /\
      total_checked st' = total_checked no_checks + 1 /\
      errors st' =
        errors no_checks + (if str_truthy (error res) then 1 else 0) /\
      passed st' =
        passed no_checks + (if str_truthy (error res) then 0
                            else if found res then 1 else 0) /\
      failed st' =
        failed no_checks + (if str_truthy (error res) then 0
                            else if found res then 0 else 1)) /\
  (forall campaign_id product_id logo_path aspect_ratio market st st' w1 w2,
      check_market 10 campaign_id product_id logo_path
        aspect_ratio market st w1 = (Ok st', w2) ->
      st' = st \/
      exists entry,
        results st' = (results st ++ [entry])%list /\
        total_checked st' = total_checked st + 1 /\
        ((errors st' = errors st + 1 /\ passed st' = passed st /\
          failed st' = failed st) \/
         (errors st' = errors st /\ passed st' = passed st + 1 /\
          failed st' = failed st) \/
         (errors st' = errors st /\ passed st' = passed st /\
          failed st' = failed st + 1))).
Proof.
  intros E s image_path.
  assert (Hrun : check_campaign_compliance "holiday_campaign.yaml" 10 true tt
                 = (Ok s, tt))
    by (vm_compute; reflexivity).
  assert (Hmid : py_get (market "us") "market_id" PNone = Ok (PStr "us"))
    by reflexivity.
  assert (Hex : path_exists (mkPath image_path) tt = (Ok true, tt))
    by reflexivity.
  pose proof (summary_counts_add_up "holiday_campaign.yaml" 10 true tt tt s
                Hrun eq_refl) as (Hsum & Hstep & Hback).
  split; [exact Hrun|]. split; [reflexivity|]. split; [exact Hsum|].
  split; [exact Hmid|]. split; [exact Hex|].
  split; [vm_compute; reflexivity|].
  split; [|exact Hback].
  exact (Hstep (PStr "c1") (PStr "p1") logo_file (PStr "1x1") (market "us")
           (PStr "us") no_checks tt tt Hmid Hex).
Defined.

(* ================================================================== *)
(** * More facts about the module and its callers *)

Lemma for_each_invariant_In {W A S} (P : S -> Prop) (body : A -> S -> M W S)
  (l : list A) :
  (forall x st w st' w',
      In x l -> body x st w = (Ok st', w') -> P st -> P st') ->
  forall st w st' w',
    for_each l body st w = (Ok st', w') -> P st -> P st'.
Proof.
  induction l as [| x l IH]; intros Hbody st w st' w' H HP.
  - apply ret_inv in H. destruct H as [-> _]. exact HP.
  - cbn [for_each] in H. bind_inv H as st1 w1 Hx.
    apply (IH (fun y s0 w0 s1 w2 Hy => Hbody y s0 w0 s1 w2 (or_intror Hy))
             st1 w1 st' w' H).
    exact (Hbody x st w st1 w1 (or_introl eq_refl) Hx HP).
Qed.

(** A loop whose body adds at most [k] to a counter adds at most
    [k * len(l)]. *)
Lemma for_each_counts {W A S} (c : S -> Z) (k : Z) (body : A -> S -> M W S) :
  0 <= k ->
  (forall x st w st' w',
      body x st w = (Ok st', w') -> c st <= c st' <= c st + k) ->
  forall l st w st' w',
    for_each l body st w = (Ok st', w') ->
    c st <= c st' <= c st + Z.of_nat (List.length l) * k.
Proof.
  intros Hk Hbody l.
  induction l as [| x l IH]; intros st w st' w' H.
  - apply ret_inv in H. destruct H as [-> _]. cbn. lia.
  - cbn [for_each] in H. bind_inv H as st1 w1 Hx.
    pose proof (Hbody _ _ _ _ _ Hx). pose proof (IH _ _ _ _ H).
    cbn [List.length]. nia.
Qed.

Lemma items_iter (v : pyval) (l : list pyval) :
  py_iter v = Ok l -> items v = l.
Proof. unfold items. now intros ->. Qed.

Section RunnerMore.
Context {E : External}.

(** What is left of [check_campaign_compliance] once the document is
    loaded and its fields are read. *)
Lemma check_campaign_loaded (campaign_file : string) (min_match_count : Z)
  (verbose : bool) (w w2 : World) (data : pyval) (fs : Fields) :
  loaded campaign_file w data w2 ->
  fields_of data = Ok fs ->
  check_campaign_compliance campaign_file min_match_count verbose w =
  bind (if verbose then
          _ <- lift (py_len (f_products fs)) ;;
          _ <- lift (py_len (f_markets fs)) ;;
          _ <- lift (py_len (f_aspect_ratios fs)) ;;
          ret tt
        else ret tt)
    (fun _ =>
       product_list <- lift (py_iter (f_products fs)) ;;
       for_each product_list
         (check_product min_match_count (f_campaign_id fs) (f_markets fs)
            (f_aspect_ratios fs))
         no_checks) w2.
Proof.
  intros (w1 & Hex & Hload) Hf. unfold check_campaign_compliance.
  rewrite (bind_Ok _ _ _ _ _ Hex). cbn [negb].
  rewrite (bind_Ok _ _ _ _ _ Hload).
  unfold fields_of in Hf.
  destruct (py_get data "campaign" (PDict [])) as [campaign |] eqn:H1;
    [|discriminate].
  destruct (py_get data "products" (PList [])) as [products |] eqn:H2;
    [|discriminate].
  destruct (py_get campaign "id" PNone) as [cid |] eqn:H3; [|discriminate].
  destruct (py_get campaign "markets" (PList [])) as [markets |] eqn:H4;
    [|discriminate].
  destruct (py_get data "creative" (PDict [])) as [creative |] eqn:H5;
    [|discriminate].
  destruct (py_get creative "aspect_ratios" (PList [])) as [ratios |] eqn:H6;
    [|discriminate].
  injection Hf as <-. cbn [f_products f_markets f_aspect_ratios f_campaign_id].
  cbv beta.
  do 2 (unfold bind at 1; unfold lift at 1; cbv beta iota).
  unfold bind at 1; unfold lift at 1; rewrite H3; cbv beta iota.
  unfold bind at 1; unfold lift at 1; rewrite H4; cbv beta iota.
  unfold bind at 1; unfold lift at 1; cbv beta iota.
  unfold bind at 1; unfold lift at 1; rewrite H6; cbv beta iota.
  reflexivity.
Qed.

Lemma check_campaign_fields_raise (campaign_file : string)
  (min_match_count : Z) (verbose : bool) (w w2 : World) (data : pyval)
  (msg : string) :
  loaded campaign_file w data w2 ->
  fields_of data = Raise msg ->
  check_campaign_compliance campaign_file min_match_count verbose w =
  (Raise msg, w2).
Proof.
  intros (w1 & Hex & Hload) Hf. unfold check_campaign_compliance.
  rewrite (bind_Ok _ _ _ _ _ Hex). cbn [negb].
  rewrite (bind_Ok _ _ _ _ _ Hload).
  unfold fields_of in Hf. cbv beta. unfold bind, lift.
  destruct (py_get data "campaign" (PDict [])) as [campaign |] eqn:H1;
    [|congruence].
  destruct (py_get data "products" (PList [])) as [products |] eqn:H2;
    [|congruence].
  destruct (py_get campaign "id" PNone) as [cid |] eqn:H3; [|congruence].
  destruct (py_get campaign "markets" (PList [])) as [markets |] eqn:H4;
    [|congruence].
  destruct (py_get data "creative" (PDict [])) as [creative |] eqn:H5;
    [|congruence].
  destruct (py_get creative "aspect_ratios" (PList [])) as [ratios |] eqn:H6;
    [discriminate | congruence].
Qed.

(** The run over a loaded document is the loop over its products, started
    in the world the loader left. *)
Lemma check_campaign_run (campaign_file : string) (min_match_count : Z)
  (verbose : bool) (w w2 w' : World) (data : pyval) (fs : Fields)
  (s : Summary) :
  loaded campaign_file w data w2 ->
  fields_of data = Ok fs ->
  check_campaign_compliance campaign_file min_match_count verbose w
  = (Ok s, w') ->
  exists product_list,
    py_iter (f_products fs) = Ok product_list /\
    for_each product_list
      (check_product min_match_count (f_campaign_id fs) (f_markets fs)
         (f_aspect_ratios fs))
      no_checks w2 = (Ok s, w').
Proof.
  intros Hl Hf H.
  rewrite (check_campaign_loaded _ _ _ _ _ _ _ Hl Hf) in H.
  bind_inv H as u w3 Hu.
  assert (w3 = w2) as ->.
  { destruct verbose.
    - bind_inv Hu as n1 w4 H1. bind_inv Hu as n2 w5 H2.
      bind_inv Hu as n3 w6 H3. apply ret_inv in Hu. destruct Hu as [_ ->].
      apply lift_Ok_world in H1, H2, H3. congruence.
    - apply ret_inv in Hu. now destruct Hu. }
  bind_inv H as pl w4 Hp.
  pose proof (lift_Ok_world _ _ _ _ Hp) as ->.
  unfold lift in Hp. injection Hp as Hp.
  exists pl. auto.
Qed.

(** A returned summary is the one of the early return, or the document was
    loaded and its fields were read. *)
Lemma check_campaign_cases (campaign_file : string) (min_match_count : Z)
  (verbose : bool) (w w' : World) (s : Summary) :
  check_campaign_compliance campaign_file min_match_count verbose w
  = (Ok s, w') ->
  (path_exists (campaign_path_of campaign_file) w = (Ok false, w') /\
   s = {| total_checked := 0; passed := 0; failed := 0; errors := 1;
          results := [];
          load_error :=
            Some ("Campaign file not found: "
                  ++ path_str (campaign_path_of campaign_file)) |}) \/
  (exists data w2 fs,
      loaded campaign_file w data w2 /\ fields_of data = Ok fs).
Proof.
  intros H. pose proof H as H0. unfold check_campaign_compliance in H.
  bind_inv H as [|] w1 H1; cbn [negb] in H.
  2:{ apply ret_inv in H. destruct H as [-> ->]. left. auto. }
  bind_inv H as data w2 H2. right.
  assert (Hl : loaded campaign_file w data w2) by (exists w1; auto).
  destruct (fields_of data) as [fs | msg] eqn:Hf.
  - eauto.
  - rewrite (check_campaign_fields_raise _ _ _ _ _ _ _ Hl Hf) in H0.
    discriminate.
Qed.

Lemma lift_inv {A} (o : outcome A) (w w' : World) (a : A) :
  lift o w = (Ok a, w') -> o = Ok a /\ w' = w.
Proof. unfold lift. intros H. now inversion H. Qed.

(* ------------------------------------------------------------------ *)
(** *** Counting *)

Lemma check_market_counts (mm : Z) (cid pid : pyval) (logo : string)
  (ratio market : pyval) (st st' : Summary) (w w' : World) :
  check_market mm cid pid logo ratio market st w = (Ok st', w') ->
  total_checked st <= total_checked st' <= total_checked st + 1.
Proof.
  intros H.
  destruct (check_market_cases _ _ _ _ _ _ _ _ _ _ H) as [-> | [entry ->]];
    cbn; lia.
Qed.

Lemma check_product_counts (mm : Z) (cid markets ratios product : pyval)
  (st st' : Summary) (w w' : World) :
  check_product mm cid markets ratios product st w = (Ok st', w') ->
  total_checked st <= total_checked st' <=
  total_checked st
  + Z.of_nat (List.length (items ratios))
    * Z.of_nat (List.length (items markets)).
Proof.
  unfold check_product. intros H.
  bind_inv H as pid w1 H1. bind_inv H as logo w2 H2.
  destruct (py_truthy logo); cbn [negb] in H.
  - bind_inv H as ratio_list w3 H3. apply lift_inv in H3.
    destruct H3 as [H3 _]. rewrite (items_iter _ _ H3).
    assert (Hbody : forall ratio s0 w0 s1 w4,
               check_aspect_ratio mm cid pid
                 ("input/assets/" ++ py_str logo) markets ratio s0 w0
               = (Ok s1, w4) ->
               total_checked s0 <= total_checked s1 <=
               total_checked s0 + Z.of_nat (List.length (items markets))).
    { intros ratio s0 w0 s1 w4 Hr. unfold check_aspect_ratio in Hr.
      bind_inv Hr as market_list w5 H5. apply lift_inv in H5.
      destruct H5 as [H5 _]. rewrite (items_iter _ _ H5).
      pose proof (for_each_counts total_checked 1 _ ltac:(lia)
                    (fun m s2 w6 s3 w7 =>
                       check_market_counts _ _ _ _ _ m s2 s3 w6 w7)
                    _ _ _ _ _ Hr).
      lia. }
    exact (for_each_counts total_checked
             (Z.of_nat (List.length (items markets))) _
             (Nat2Z.is_nonneg _) Hbody _ _ _ _ _ H).
  - apply ret_inv in H. destruct H as [-> _]. nia.
Qed.

(* ------------------------------------------------------------------ *)
(** *** The entries of [results] *)

Lemma count_app (p : ResultEntry -> bool) (l : list ResultEntry)
  (e : ResultEntry) :
  count p (l ++ [e]) = count p l + (if p e then 1 else 0).
Proof.
  unfold count. rewrite filter_app, length_app. cbn [filter].
  destruct (p e); cbn; lia.
Qed.

Lemma record_result_counted (st : Summary) (entry : ResultEntry) :
  counted st -> counted (record_result st entry).
Proof.
  intros (He & Hp & Hf). unfold counted, record_result.
  cbn [errors passed failed results]. rewrite !count_app.
  change (is_passed entry)
    with (negb (str_truthy (error (result entry))) && found (result entry)).
  change (is_failed entry)
    with (negb (str_truthy (error (result entry)))
          && negb (found (result entry))).
  change (is_error entry) with (str_truthy (error (result entry))).
  destruct (str_truthy (error (result entry))), (found (result entry));
    cbn [negb andb]; lia.
Qed.

Lemma check_logo_detection_result (c l : string) (mm : Z) (thr : float)
  (w w' : World) (res : ComplianceResult) :
  check_logo_in_image c l mm thr w = (Ok res, w') ->
  detection_result mm res.
Proof.
  intros H. unfold detection_result.
  destruct (error res) as [msg |] eqn:Herr.
  - assert (Hne : error res <> None) by congruence.
    destruct (check_logo_failure _ _ _ _ _ _ _ H Hne) as [m ->].
    repeat split.
  - destruct (check_logo_success _ _ _ _ _ _ _ H Herr)
      as (f & matches & w2 & Hm & Hdec).
    destruct (decide_returns f matches mm thr w2) as (loc & w3 & Hret & _).
    rewrite Hret in Hdec. injection Hdec as <- <-.
    cbn [found match_count confidence].
    set (n := Z.of_nat (List.length (ratio_test thr matches []))).
    assert (Hu : unit_float
                   (confidence_score n (Z.of_nat (List.length (kp1 f)))))
      by (apply confidence_score_unit; subst n; lia).
    rewrite (py_round_unit _ Hu).
    pose proof (thousandth_in_unit_interval _ (thousandths_bounds _ Hu))
      as [H0 H1].
    repeat split; try assumption; try (apply Z.leb_le; assumption);
      try (subst n; lia).
Qed.

End RunnerMore.

Section RunnerLoops.
Context {E : External}.
Variables (mm : Z) (fs : Fields).

Local Abbreviation cid := (f_campaign_id fs).
Local Abbreviation markets := (f_markets fs).
Local Abbreviation ratios := (f_aspect_ratios fs).

(** A property of the accumulators that every recorded check keeps holds
    of the summary of the loop over the products. *)
Lemma run_invariant (P : Summary -> Prop) (product_list : list pyval) :
  (forall st product ratio market pid mid lf res w1 w2,
      In product product_list ->
      In ratio (items ratios) ->
      In market (items markets) ->
      py_get product "id" PNone = Ok pid ->
      logo_of product = Ok lf ->
      py_truthy lf = true ->
      py_get market "market_id" PNone = Ok mid ->
      check_logo_in_image (image_path_of cid pid ratio mid)
        ("input/assets/" ++ py_str lf) mm default_good_match_threshold w1
      = (Ok res, w2) ->
      P st ->
      P (record_result st
           {| product_id := pid; aspect_ratio := ratio; market_id := mid;
              image_path := image_path_of cid pid ratio mid;
              logo_path := "input/assets/" ++ py_str lf;
              result := res |})) ->
  forall st w s w',
    for_each product_list (check_product mm cid markets ratios) st w
    = (Ok s, w') ->
    P st -> P s.
Proof.
  intros Hrec. apply for_each_invariant_In.
  intros product st w st' w' Hin H HP. unfold check_product in H.
  bind_inv H as pid w1 H1. apply lift_inv in H1. destruct H1 as [H1 ->].
  bind_inv H as lf w2 H2. apply lift_inv in H2. destruct H2 as [H2 ->].
  destruct (py_truthy lf) eqn:Hlf; cbn [negb] in H.
  2:{ apply ret_inv in H. destruct H as [-> _]. exact HP. }
  bind_inv H as rl w3 H3. apply lift_inv in H3. destruct H3 as [H3 ->].
  rewrite <- (items_iter _ _ H3) in H.
  refine (for_each_invariant_In P _ _ _ _ _ _ _ H HP).
  intros ratio s0 w0 s1 w4 Hr Hra HP0. unfold check_aspect_ratio in Hra.
  bind_inv Hra as ml w5 H5. apply lift_inv in H5. destruct H5 as [H5 ->].
  rewrite <- (items_iter _ _ H5) in Hra.
  refine (for_each_invariant_In P _ _ _ _ _ _ _ Hra HP0).
  intros market s2 w6 s3 w7 Hm Hma HP2. unfold check_market in Hma.
  bind_inv Hma as mid w8 H8. apply lift_inv in H8. destruct H8 as [H8 ->].
  bind_inv Hma as [|] w9 H9; cbn [negb] in Hma.
  - bind_inv Hma as res w10 H10. apply ret_inv in Hma. destruct Hma as [-> _].
    eapply Hrec; eauto.
  - apply ret_inv in Hma. destruct Hma as [-> _]. exact HP2.
Qed.

Lemma run_counts (product_list : list pyval) (st s : Summary) (w w' : World) :
  for_each product_list (check_product mm cid markets ratios) st w
  = (Ok s, w') ->
  total_checked st <= total_checked s <=
  total_checked st
  + Z.of_nat (List.length product_list)
    * (Z.of_nat (List.length (items ratios))
       * Z.of_nat (List.length (items markets))).
Proof.
  apply (for_each_counts total_checked); [lia|].
  intros product s0 w0 s1 w1. apply check_product_counts.
Qed.

End RunnerLoops.

Section RunnerSummaries.
Context {E : External}.

Lemma run_counted (mm : Z) (fs : Fields) (product_list : list pyval)
  (w w' : World) (s : Summary) :
  for_each product_list
    (check_product mm (f_campaign_id fs) (f_markets fs) (f_aspect_ratios fs))
    no_checks w = (Ok s, w') ->
  counted s.
Proof.
  intros Hrun.
  refine (run_invariant mm fs counted product_list _ _ _ _ _ Hrun _).
  - intros. now apply record_result_counted.
  - repeat split.
Qed.

Lemma summary_counters_nonneg (campaign_file : string) (mm : Z)
  (verbose : bool) (w w' : World) (s : Summary) :
  check_campaign_compliance campaign_file mm verbose w = (Ok s, w') ->
  0 <= errors s /\ 0 <= passed s /\ 0 <= failed s.
Proof.
  intros H.
  destruct (check_campaign_cases _ _ _ _ _ _ H)
    as [[_ ->] | (data & w2 & fs & Hl & Hf)]; [cbn; lia|].
  destruct (check_campaign_run _ _ _ _ _ _ _ _ _ Hl Hf H) as (pl & Hp & Hrun).
  destruct (run_counted _ _ _ _ _ _ Hrun) as (-> & -> & ->).
  unfold count. lia.
Qed.

End RunnerSummaries.

(* ================================================================== *)
(** * More properties of check_campaign_compliance *)

Section RunnerExtras.
Context {E : External}.
Variables (campaign_file : string) (min_match_count : Z).

(** X6.  A summary returned with [verbose=True] is returned as well, from
    the same calls, with [verbose=False]. *)
Theorem verbose_does_not_change_summary (w w' : World) (s : Summary) :
  check_campaign_compliance campaign_file min_match_count true w
  = (Ok s, w') ->
  check_campaign_compliance campaign_file min_match_count false w
  = (Ok s, w').
Proof.
  intros H.
  destruct (check_campaign_cases _ _ _ _ _ _ H)
    as [[Hex ->] | (data & w2 & fs & Hl & Hf)].
  - unfold check_campaign_compliance.
    rewrite (bind_Ok _ _ _ _ _ Hex). reflexivity.
  - destruct (check_campaign_run _ _ _ _ _ _ _ _ _ Hl Hf H)
      as (pl & Hp & Hrun).
    rewrite (check_campaign_loaded _ _ false _ _ _ _ Hl Hf).
    unfold bind at 1. unfold ret at 1. unfold bind, lift.
    rewrite Hp. exact Hrun.
Qed.

(** X7.  The number of checked images is at most the number of
    combinations: products times aspect ratios times markets. *)
Theorem total_checked_bounded (verbose : bool) (w w2 w' : World)
  (data : pyval) (fs : Fields) (s : Summary) :
  loaded campaign_file w data w2 ->
  fields_of data = Ok fs ->
  check_campaign_compliance campaign_file min_match_count verbose w
  = (Ok s, w') ->
  0 <= total_checked s <=
  Z.of_nat (List.length (items (f_products fs)))
  * Z.of_nat (List.length (items (f_aspect_ratios fs)))
  * Z.of_nat (List.length (items (f_markets fs))).
Proof.
  intros Hl Hf H.
  destruct (check_campaign_run _ _ _ _ _ _ _ _ _ Hl Hf H) as (pl & Hp & Hrun).
  rewrite (items_iter _ _ Hp).
  pose proof (run_counts _ _ _ _ _ _ _ Hrun) as Hc. cbn in Hc. lia.
Qed.

(** X8.  In a summary returned after loading, [errors], [passed] and
    [failed] are the numbers of entries of [results] with an error, found
    without error, and not found without error; and [passed] is the number
    of entries with [found = True]. *)
Theorem counters_count_results (verbose : bool) (w w' : World) (s : Summary) :
  check_campaign_compliance campaign_file min_match_count verbose w
  = (Ok s, w') ->
  load_error s = None ->
  errors s = count is_error (results s) /\
  passed s = count is_passed (results s) /\
  failed s = count is_failed (results s) /\
  passed s = count (fun entry => found (result entry)) (results s).
Proof.
  intros H Hload.
  destruct (check_campaign_cases _ _ _ _ _ _ H)
    as [[Hex ->] | (data & w2 & fs & Hl & Hf)]; [discriminate|].
  destruct (check_campaign_run _ _ _ _ _ _ _ _ _ Hl Hf H) as (pl & Hp & Hrun).
  assert (Hinv : counted s /\
                 Forall (fun entry =>
                           is_passed entry = found (result entry))
                   (results s)).
  { refine (run_invariant min_match_count fs
              (fun st => counted st /\
                         Forall (fun entry =>
                                   is_passed entry = found (result entry))
                           (results st))
              pl _ _ _ _ _ Hrun _).
    - intros st product ratio market pid mid lf res w1 w3 _ _ _ _ _ _ _ Hres
        [Hc Hall].
      split; [now apply record_result_counted|].
      cbn [record_result results]. apply Forall_app. split; [exact Hall|].
      constructor; [|constructor].
      unfold is_passed, is_error. cbn [result].
      pose proof (check_logo_detection_result _ _ _ _ _ _ _ Hres) as Hd.
      unfold detection_result in Hd.
      destruct (error res) as [msg |]; cbn [str_truthy].
      + destruct Hd as (-> & _). now destruct (negb _).
      + reflexivity.
    - split; [repeat split | constructor]. }
  destruct Hinv as [(He & Hpa & Hfa) Hall].
  repeat split; try assumption.
  rewrite Hpa. unfold count. f_equal. f_equal.
  apply filter_ext_in. intros entry Hin.
  rewrite Forall_forall in Hall. now apply Hall.
Qed.

(** X9.  Every entry of [results] belongs to a combination of the
    campaign: a product with a logo, an aspect ratio and a market of the
    document, with the image path and the logo path built from them. *)
Theorem results_belong_to_campaign (verbose : bool) (w w2 w' : World)
  (data : pyval) (fs : Fields) (s : Summary) :
  loaded campaign_file w data w2 ->
  fields_of data = Ok fs ->
  check_campaign_compliance campaign_file min_match_count verbose w
  = (Ok s, w') ->
  Forall (of_campaign fs) (results s).
Proof.
  intros Hl Hf H.
  destruct (check_campaign_run _ _ _ _ _ _ _ _ _ Hl Hf H) as (pl & Hp & Hrun).
  refine (run_invariant min_match_count fs
            (fun st => Forall (of_campaign fs) (results st))
            pl _ _ _ _ _ Hrun _); [|constructor].
  intros st product ratio market pid mid lf res w1 w3 Hin Hr Hm Hid Hlogo Hlf
    Hmid _ Hall.
  cbn [record_result results]. apply Forall_app. split; [exact Hall|].
  constructor; [|constructor].
  exists product, market, lf. cbn.
  rewrite (items_iter _ _ Hp). repeat split; assumption.
Qed.

(** X10.  Every entry of [results] carries a well-formed detection result
    for the runner's [min_match_count]: a failure record, or a verdict
    [found <-> match_count >= min_match_count] with a confidence in
    [0.0, 1.0]. *)
Theorem results_are_detection_results (verbose : bool) (w w' : World)
  (s : Summary) :
  check_campaign_compliance campaign_file min_match_count verbose w
  = (Ok s, w') ->
  Forall (fun entry => detection_result min_match_count (result entry))
    (results s).
Proof.
  intros H.
  destruct (check_campaign_cases _ _ _ _ _ _ H)
    as [[Hex ->] | (data & w2 & fs & Hl & Hf)]; [constructor|].
  destruct (check_campaign_run _ _ _ _ _ _ _ _ _ Hl Hf H) as (pl & Hp & Hrun).
  refine (run_invariant min_match_count fs
            (fun st => Forall (fun entry =>
                                 detection_result min_match_count
                                   (result entry)) (results st))
            pl _ _ _ _ _ Hrun _); [|constructor].
  intros st product ratio market pid mid lf res w1 w3 _ _ _ _ _ _ _ Hres Hall.
  cbn [record_result results]. apply Forall_app. split; [exact Hall|].
  constructor; [|constructor]. cbn [result].
  exact (check_logo_detection_result _ _ _ _ _ _ _ Hres).
Qed.

(** X11.  When the loaded document is not a mapping (an empty YAML file
    loads as [None]) the function raises the attribute error of [.get];
    more generally an exception while reading the fields reaches the
    caller. *)
Theorem document_not_a_mapping_raises (verbose : bool) (w w2 : World)
  (data : pyval) :
  loaded campaign_file w data w2 ->
  (forall msg,
      fields_of data = Raise msg ->
      check_campaign_compliance campaign_file min_match_count verbose w
      = (Raise msg, w2)) /\
  ((forall entries, data <> PDict entries) ->
   check_campaign_compliance campaign_file min_match_count verbose w
   = (Raise ("'" ++ type_name data ++ "' object has no attribute 'get'"),
      w2)).
Proof.
  intros Hl. split.
  - intros msg Hf. now apply check_campaign_fields_raise with (data := data).
  - intros Hnot. apply check_campaign_fields_raise with (data := data);
      [exact Hl|].
    unfold fields_of, py_get.
    destruct data; try reflexivity. now elim (Hnot entries).
Qed.

(** X12.  When no product of the document has an [assets.logo] entry, the
    quiet run returns the summary of zeros and makes no outside call after
    loading. *)
Theorem no_logos_no_checks (w w2 : World) (data : pyval) (fs : Fields)
  (product_list : list pyval) :
  loaded campaign_file w data w2 ->
  fields_of data = Ok fs ->
  py_iter (f_products fs) = Ok product_list ->
  Forall lacks_logo product_list ->
  check_campaign_compliance campaign_file min_match_count false w
  = (Ok no_checks, w2).
Proof.
  intros Hl Hf Hp Hall.
  rewrite (check_campaign_loaded _ _ false _ _ _ _ Hl Hf).
  unfold bind at 1. unfold ret at 1. unfold bind, lift. rewrite Hp.
  clear Hp. induction Hall as [| product pl Hlack _ IH]; [reflexivity|].
  cbn [for_each]. unfold bind.
  rewrite (check_product_skip _ _ _ _ _ PNone no_checks w2
             (lacks_logo_None _ Hlack) eq_refl).
  exact IH.
Qed.

End RunnerExtras.

(* ================================================================== *)
(** * More properties of check_logo_in_image *)

Section LogoExtras.
Context {E : External}.
Variables (campaign_image_path logo_path : string).
Variables (min_match_count : Z) (good_match_threshold : float).

Local Abbreviation check :=
  (check_logo_in_image campaign_image_path logo_path
     min_match_count good_match_threshold).

(** X1.  Whatever the file system and OpenCV do, the function raises
    nothing: it returns a result. *)
Theorem check_logo_in_image_never_raises (w : World) :
  exists res w',
    check_logo_in_image campaign_image_path logo_path min_match_count
      good_match_threshold w = (Ok res, w').
Proof.
  destruct (check_logo_cases campaign_image_path logo_path min_match_count
              good_match_threshold w)
    as [(msg & w' & H) | (f & matches & w2 & H)].
  - eauto.
  - rewrite (check_logo_forward _ _ min_match_count good_match_threshold
               _ _ _ _ H).
    destruct (decide_returns f matches min_match_count good_match_threshold
                w2) as (loc & w' & Hdec & _).
    eauto.
Qed.

(** X2.  An exception of an outside call becomes the failure record whose
    error is ["Logo detection error: "] followed by the message: shown for
    the first existence test, for reading the campaign image and for the
    matcher. *)
Theorem library_exception_becomes_error (w : World) :
  (forall msg w1,
      path_exists (mkPath campaign_image_path) w = (Raise msg, w1) ->
      check w = (Ok (failure ("Logo detection error: " ++ msg)), w1)) /\
  (forall msg w1 w2 w3,
      path_exists (mkPath campaign_image_path) w = (Ok true, w1) ->
      path_exists (mkPath logo_path) w1 = (Ok true, w2) ->
      imread (path_str (mkPath campaign_image_path)) w2 = (Raise msg, w3) ->
      check w = (Ok (failure ("Logo detection error: " ++ msg)), w3)) /\
  (forall f d1 d2 msg w1 w2,
      detect_features campaign_image_path logo_path w = (Ok (inr f), w1) ->
      des1 f = Some d1 -> des2 f = Some d2 ->
      knnMatch d1 d2 w1 = (Raise msg, w2) ->
      check w = (Ok (failure ("Logo detection error: " ++ msg)), w2)).
Proof.
  split; [|split].
  - intros msg w1 H. unfold check_logo_in_image, try_except, check_logo_body,
      detect_features.
    rewrite (bind_Raise _ _ _ _ _ (bind_Raise _ _ _ _ _ H)). reflexivity.
  - intros msg w1 w2 w3 H1 H2 H3.
    unfold check_logo_in_image, try_except, check_logo_body.
    assert (Hd : detect_features campaign_image_path logo_path w
                 = (Raise msg, w3)).
    { unfold detect_features. rewrite (bind_Ok _ _ _ _ _ H1). cbn [negb].
      rewrite (bind_Ok _ _ _ _ _ H2). cbn [negb].
      now rewrite (bind_Raise _ _ _ _ _ H3). }
    rewrite (bind_Raise _ _ _ _ _ Hd). reflexivity.
  - intros f d1 d2 msg w1 w2 Hd H1 H2 Hk.
    unfold check_logo_in_image, try_except, check_logo_body.
    rewrite (bind_Ok _ _ _ _ _ Hd). rewrite H1, H2.
    rewrite (bind_Raise _ _ _ _ _ Hk). reflexivity.
Qed.

(** X3.  The inputs are tested in a fixed order and the error names the
    path as it was passed: the campaign image is looked for first, then
    the logo; both files are read before either is tested, and an
    undecodable campaign image is reported before an undecodable logo. *)
Theorem input_errors_in_order (w : World) :
  (forall w1,
      path_exists (mkPath campaign_image_path) w = (Ok false, w1) ->
      check w =
      (Ok (failure ("Campaign image not found: " ++ campaign_image_path)),
       w1)) /\
  (forall w1 w2,
      path_exists (mkPath campaign_image_path) w = (Ok true, w1) ->
      path_exists (mkPath logo_path) w1 = (Ok false, w2) ->
      check w = (Ok (failure ("Logo image not found: " ++ logo_path)), w2)) /\
  (forall w1 w2 w3 w4 logo_img,
      path_exists (mkPath campaign_image_path) w = (Ok true, w1) ->
      path_exists (mkPath logo_path) w1 = (Ok true, w2) ->
      imread (path_str (mkPath campaign_image_path)) w2 = (Ok None, w3) ->
      imread (path_str (mkPath logo_path)) w3 = (Ok logo_img, w4) ->
      check w =
      (Ok (failure
             ("Could not read campaign image: " ++ campaign_image_path)),
       w4)) /\
  (forall w1 w2 w3 w4 campaign_img,
      path_exists (mkPath campaign_image_path) w = (Ok true, w1) ->
      path_exists (mkPath logo_path) w1 = (Ok true, w2) ->
      imread (path_str (mkPath campaign_image_path)) w2
      = (Ok (Some campaign_img), w3) ->
      imread (path_str (mkPath logo_path)) w3 = (Ok None, w4) ->
      check w =
      (Ok (failure ("Could not read logo image: " ++ logo_path)), w4)).
Proof.
  unfold check_logo_in_image, try_except, check_logo_body, detect_features.
  split; [|split; [|split]].
  - intros w1 H1. unfold bind at 1. rewrite (bind_Ok _ _ _ _ _ H1).
    reflexivity.
  - intros w1 w2 H1 H2. unfold bind at 1.
    rewrite (bind_Ok _ _ _ _ _ H1). cbn [negb].
    rewrite (bind_Ok _ _ _ _ _ H2). reflexivity.
  - intros w1 w2 w3 w4 logo_img H1 H2 H3 H4. unfold bind at 1.
    rewrite (bind_Ok _ _ _ _ _ H1). cbn [negb].
    rewrite (bind_Ok _ _ _ _ _ H2). cbn [negb].
    rewrite (bind_Ok _ _ _ _ _ H3). rewrite (bind_Ok _ _ _ _ _ H4).
    reflexivity.
  - intros w1 w2 w3 w4 campaign_img H1 H2 H3 H4. unfold bind at 1.
    rewrite (bind_Ok _ _ _ _ _ H1). cbn [negb].
    rewrite (bind_Ok _ _ _ _ _ H2). cbn [negb].
    rewrite (bind_Ok _ _ _ _ _ H3). rewrite (bind_Ok _ _ _ _ _ H4).
    reflexivity.
Qed.

(** X4.  The match count of a result without error is at least 0 and at
    most the number of entries the matcher returned, entries that do not
    hold exactly two matches not counted. *)
Theorem match_count_bounded (w w' : World) (res : ComplianceResult) :
  check w = (Ok res, w') ->
  error res = None ->
  exists f matches w2,
    matched campaign_image_path logo_path w f matches w2 /\
    0 <= match_count res /\
    match_count res
    <= Z.of_nat (List.length
                   (filter (fun match_pair =>
                              (List.length match_pair =? 2)%nat) matches)) /\
    match_count res <= Z.of_nat (List.length matches).
Proof.
  intros H Herr.
  destruct (check_logo_success _ _ _ _ _ _ _ H Herr)
    as (f & matches & w2 & Hm & Hdec).
  exists f, matches, w2. split; [exact Hm|].
  destruct (decide_returns f matches min_match_count good_match_threshold w2)
    as (loc & w3 & Hret & _).
  rewrite Hret in Hdec. injection Hdec as <- <-. cbn [match_count].
  rewrite ratio_test_length. cbn [List.length Nat.add].
  assert (H2 : (List.length
                  (filter (passes_ratio_test good_match_threshold) matches)
                <= List.length
                     (filter (fun match_pair =>
                                (List.length match_pair =? 2)%nat) matches))%nat).
  { clear. induction matches as [| mp rest IH]; [apply Nat.le_refl|].
    cbn [filter].
    destruct mp as [| m [| n [| x tl]]]; cbn [passes_ratio_test List.length Nat.eqb];
      try exact IH.
    destruct (flt (distance m) (fmul good_match_threshold (distance n)));
      cbn [List.length]; lia. }
  pose proof (filter_length_le
                (fun match_pair => (List.length match_pair =? 2)%nat) matches).
  lia.
Qed.

(** X5.  With [min_match_count <= 0] every image that could be processed
    is reported as found, even without a single good match. *)
Theorem nonpositive_min_match_count_always_found (w w' : World)
  (res : ComplianceResult) :
  check w = (Ok res, w') ->
  error res = None ->
  min_match_count <= 0 ->
  found res = true.
Proof.
  intros H Herr Hmm.
  pose proof (check_logo_detection_result _ _ _ _ _ _ _ H) as Hd.
  unfold detection_result in Hd. rewrite Herr in Hd.
  destruct Hd as (Hf & H0 & _). apply Hf. lia.
Qed.

End LogoExtras.

(* ================================================================== *)
(** * The scripts *)

Section MainExtras.
Context {E : External}.

(** X13.  The script of the module raises nothing and exits with status 0
    or 1; the status is 0 exactly when the check returned a summary with
    no failed image and no error, and so it is 1 when the campaign file is
    missing or the check raised. *)
Theorem main_exit_status (argv : list string) (w : World) :
  let campaign_file :=
    match argv with
    | _ :: arg :: _ => arg
    | _ => "holiday_campaign.yaml"
    end in
  exists status w',
    main argv w = (Ok status, w') /\
    (status = 0 \/ status = 1) /\
    (status = 0 <->
     exists s,
       check_campaign_compliance campaign_file 10 true w = (Ok s, w') /\
       failed s = 0 /\ errors s = 0) /\
    (fst (path_exists (campaign_path_of campaign_file) w) = Ok false ->
     status = 1) /\
    ((exists msg, fst (check_campaign_compliance campaign_file 10 true w)
                  = Raise msg) ->
     status = 1).
Proof.
  intros campaign_file. unfold main. fold campaign_file.
  unfold try_except, bind.
  destruct (check_campaign_compliance campaign_file 10 true w)
    as [[s | msg] w'] eqn:Hrun.
  - destruct (summary_counters_nonneg _ _ _ _ _ _ Hrun) as (Hne & _ & Hnf).
    destruct ((0 <? failed s) || (0 <? errors s)) eqn:Hc; unfold ret.
    + exists 1, w'. split; [reflexivity|]. split; [now right|].
      split; [|split; auto].
      split; [discriminate|]. intros (s' & Hs & Hf & He).
      injection Hs as <-. rewrite Hf, He in Hc. discriminate.
    + exists 0, w'. split; [reflexivity|]. split; [now left|].
      apply orb_false_iff in Hc. destruct Hc as [Hf He].
      apply Z.ltb_ge in Hf, He.
      split; [|split].
      * split; [|reflexivity]. intros _. exists s.
        split; [reflexivity|]. lia.
      * intros Hex.
        destruct (check_campaign_cases _ _ _ _ _ _ Hrun)
          as [[_ ->] | (data & w2 & fs & (w1 & Ht & _) & _)].
        -- cbn in He. lia.
        -- rewrite Ht in Hex. discriminate.
      * intros [msg Hmsg]. discriminate.
  - exists 1, w'. split; [reflexivity|]. split; [now right|].
    split; [|split; auto].
    split; [discriminate|]. intros (s & Hs & _). discriminate.
Qed.

End MainExtras.

Lemma last_cons {A} (l : list A) (a d : A) : last (a :: l) d = last l a.
Proof.
  revert a d. induction l as [| b l IH]; intros a d; [reflexivity|].
  change (last (a :: b :: l) d) with (last (b :: l) d).
  now rewrite (IH b d), (IH b a).
Qed.

Lemma parse_arguments_fold (args : list string) :
  forall campaign_file use_dropbox,
    fold_left parse_argument args (campaign_file, use_dropbox) =
    (last (map Some (filter (fun arg => negb (String.eqb arg "--dropbox"))
                       args)) campaign_file,
     use_dropbox || existsb (fun arg => String.eqb arg "--dropbox") args).
Proof.
  induction args as [| arg args IH]; intros campaign_file use_dropbox.
  - cbn. now rewrite orb_false_r.
  - cbn [fold_left parse_argument filter existsb].
    destruct (String.eqb arg "--dropbox"); cbn [negb].
    + rewrite IH. f_equal. now rewrite orb_true_r.
    + rewrite IH. cbn [map]. rewrite last_cons. f_equal.
Qed.

(** X14.  On the command line of the workflow, the synchronisation is on
    exactly when [--dropbox] is among the arguments, and the campaign file
    is the last argument that is not [--dropbox] (there is none when all
    are); earlier file arguments are dropped. *)
Theorem parse_arguments_last_file_wins (argv : list string) :
  let args := tl argv in
  let file_args :=
    filter (fun arg => negb (String.eqb arg "--dropbox")) args in
  (snd (parse_arguments argv) = true <-> In "--dropbox" args) /\
  fst (parse_arguments argv) = last (map Some file_args) None /\
  (forall before file,
      file_args = (before ++ [file])%list ->
      fst (parse_arguments argv) = Some file) /\
  (file_args = [] -> fst (parse_arguments argv) = None).
Proof.
  intros args file_args. unfold parse_arguments. fold args.
  rewrite parse_arguments_fold. fold file_args. cbn [fst snd orb].
  split; [|split; [|split]].
  - rewrite existsb_exists. split.
    + intros (arg & Hin & Heq). apply String.eqb_eq in Heq. now subst.
    + intros Hin. exists "--dropbox". split; [exact Hin | reflexivity].
  - reflexivity.
  - intros before file ->. rewrite map_app. cbn [map]. now rewrite last_last.
  - now intros ->.
Qed.

(* ================================================================== *)
(** * The further properties in the static worlds *)

Import Fixture Scenes.

(** X2 at a matcher that raises. *)
Lemma library_exception_becomes_error_witness :
  let E := broken_matcher in
  let f := {| kp1 := [kp 1 1]; des1 := Some logo_file;
              kp2 := [kp 1 1]; des2 := Some image_file;
              logo_gray := logo_file |} in
  detect_features image_file logo_file tt = (Ok (inr f), tt) /\
  knnMatch logo_file image_file tt
  = (Raise "OpenCV: bad descriptor type", tt) /\
  check_logo_in_image image_file logo_file 10 default_good_match_threshold tt
  = (Ok (failure "Logo detection error: OpenCV: bad descriptor type"), tt).
Proof.
  intros E f.
  assert (Hd : detect_features image_file logo_file tt = (Ok (inr f), tt))
    by reflexivity.
  assert (Hk : knnMatch logo_file image_file tt
               = (Raise "OpenCV: bad descriptor type", tt)) by reflexivity.
  split; [exact Hd|]. split; [exact Hk|].
  exact (proj2 (proj2 (library_exception_becomes_error image_file logo_file
                         10 default_good_match_threshold tt))
           f logo_file image_file _ tt tt Hd eq_refl eq_refl Hk).
Defined.

(** X3: a missing campaign image, a missing logo, and two files that
    cannot be decoded. *)
Lemma input_errors_in_order_witness :
  (let E := external no_image in
   path_exists (mkPath image_file) tt = (Ok false, tt) /\
   check_logo_in_image image_file logo_file 10 default_good_match_threshold tt
   = (Ok (failure ("Campaign image not found: " ++ image_file)), tt)) /\
  (let E := external no_logo in
   path_exists (mkPath image_file) tt = (Ok true, tt) /\
   path_exists (mkPath logo_file) tt = (Ok false, tt) /\
   check_logo_in_image image_file logo_file 10 default_good_match_threshold tt
   = (Ok (failure ("Logo image not found: " ++ logo_file)), tt)) /\
  (let E := external undecodable in
   imread (path_str (mkPath image_file)) tt = (Ok None, tt) /\
   imread (path_str (mkPath logo_file)) tt = (Ok None, tt) /\
   check_logo_in_image image_file logo_file 10 default_good_match_threshold tt
   = (Ok (failure ("Could not read campaign image: " ++ image_file)), tt)).
Proof.
  split; [|split].
  - intros E. split; [reflexivity|].
    exact (proj1 (input_errors_in_order image_file logo_file 10
                    default_good_match_threshold tt) tt eq_refl).
  - intros E. split; [reflexivity|]. split; [reflexivity|].
    exact (proj1 (proj2 (input_errors_in_order image_file logo_file 10
                           default_good_match_threshold tt))
             tt tt eq_refl eq_refl).
  - intros E. split; [reflexivity|]. split; [reflexivity|].
    exact (proj1 (proj2 (proj2 (input_errors_in_order image_file logo_file 10
                                  default_good_match_threshold tt)))
             tt tt tt tt None eq_refl eq_refl eq_refl eq_refl).
Defined.

(** X4 at three neighbour pairs: one good match. *)
Lemma match_count_bounded_witness :
  let E := external sparse in
  check_logo_in_image image_file logo_file 10 default_good_match_threshold tt
  = (Ok sparse_result, tt) /\
  error sparse_result = None /\
  exists f matches w2,
    matched image_file logo_file tt f matches w2 /\
    0 <= match_count sparse_result /\
    match_count sparse_result
    <= Z.of_nat (List.length
                   (filter (fun match_pair =>
                              (List.length match_pair =? 2)%nat) matches)) /\
    match_count sparse_result <= Z.of_nat (List.length matches).
Proof.
  intros E.
  assert (Hrun : check_logo_in_image image_file logo_file 10
                   default_good_match_threshold tt = (Ok sparse_result, tt))
    by (vm_compute; reflexivity).
  split; [exact Hrun|]. split; [reflexivity|].
  exact (match_count_bounded image_file logo_file 10
           default_good_match_threshold tt tt sparse_result Hrun eq_refl).
Defined.

(** X5 at [min_match_count = 0]: one good match, far below the default
    of ten, is reported as found. *)
Lemma nonpositive_min_match_count_always_found_witness :
  let E := external sparse in
  let res := {| found := true; match_count := 1;
                confidence := int_truediv 333 1000;
                location := None; error := None |} in
  check_logo_in_image image_file logo_file 0 default_good_match_threshold tt
  = (Ok res, tt) /\
  error res = None /\ 0 <= 0 /\ found res = true.
Proof.
  intros E res.
  assert (Hrun : check_logo_in_image image_file logo_file 0
                   default_good_match_threshold tt = (Ok res, tt))
    by (vm_compute; reflexivity).
  assert (H0 : 0 <= 0) by lia.
  split; [exact Hrun|]. split; [reflexivity|]. split; [exact H0|].
  exact (nonpositive_min_match_count_always_found image_file logo_file 0
           default_good_match_threshold tt tt res Hrun eq_refl H0).
Defined.

(** X6 in the campaign of two products; the converse fails for a document
    whose markets cannot be counted: the verbose run raises on [len], the
    quiet run returns. *)
Lemma verbose_does_not_change_summary_witness :
  let E := external found_campaign in
  check_campaign_compliance "holiday_campaign.yaml" 10 true tt
  = (Ok found_summary, tt) /\
  check_campaign_compliance "holiday_campaign.yaml" 10 false tt
  = (Ok found_summary, tt) /\
  check_campaign_compliance "odd.yaml" 10 true tt
  = (Raise "object of type 'int' has no len()", tt) /\
  check_campaign_compliance "odd.yaml" 10 false tt = (Ok no_checks, tt).
Proof.
  intros E.
  assert (Hrun : check_campaign_compliance "holiday_campaign.yaml" 10 true tt
                 = (Ok found_summary, tt))
    by (vm_compute; reflexivity).
  split; [exact Hrun|]. split.
  - exact (verbose_does_not_change_summary "holiday_campaign.yaml" 10 tt tt
             found_summary Hrun).
  - split; vm_compute; reflexivity.
Defined.

(** X7 in the campaign of two products, one aspect ratio and two markets:
    one image of four was checked. *)
Lemma total_checked_bounded_witness :
  let E := external found_campaign in
  loaded "holiday_campaign.yaml" tt campaign_doc tt /\
  fields_of campaign_doc = Ok campaign_fields /\
  check_campaign_compliance "holiday_campaign.yaml" 10 true tt
  = (Ok found_summary, tt) /\
  0 <= total_checked found_summary <= 2 * 1 * 2.
Proof.
  intros E.
  assert (Hl : loaded "holiday_campaign.yaml" tt campaign_doc tt)
    by (exists tt; split; reflexivity).
  assert (Hrun : check_campaign_compliance "holiday_campaign.yaml" 10 true tt
                 = (Ok found_summary, tt))
    by (vm_compute; reflexivity).
  split; [exact Hl|]. split; [reflexivity|]. split; [exact Hrun|].
  exact (total_checked_bounded "holiday_campaign.yaml" 10 true tt tt tt
           campaign_doc campaign_fields found_summary Hl eq_refl Hrun).
Defined.

(** X8 in the campaign of [Fixture.campaign]: one entry, not found. *)
Lemma counters_count_results_witness :
  let E := external campaign in
  let s := campaign_summary in
  check_campaign_compliance "holiday_campaign.yaml" 10 true tt = (Ok s, tt) /\
  load_error s = None /\
  errors s = count is_error (results s) /\
  passed s = count is_passed (results s) /\
  failed s = count is_failed (results s) /\
  passed s = count (fun entry => found (result entry)) (results s).
Proof.
  intros E s.
  assert (Hrun : check_campaign_compliance "holiday_campaign.yaml" 10 true tt
                 = (Ok s, tt))
    by (vm_compute; reflexivity).
  split; [exact Hrun|]. split; [reflexivity|].
  exact (counters_count_results "holiday_campaign.yaml" 10 true tt tt s
           Hrun eq_refl).
Defined.

(** X9 in the campaign of two products. *)
Lemma results_belong_to_campaign_witness :
  let E := external found_campaign in
  loaded "holiday_campaign.yaml" tt campaign_doc tt /\
  fields_of campaign_doc = Ok campaign_fields /\
  check_campaign_compliance "holiday_campaign.yaml" 10 true tt
  = (Ok found_summary, tt) /\
  Forall (of_campaign campaign_fields) (results found_summary).
Proof.
  intros E.
  assert (Hl : loaded "holiday_campaign.yaml" tt campaign_doc tt)
    by (exists tt; split; reflexivity).
  assert (Hrun : check_campaign_compliance "holiday_campaign.yaml" 10 true tt
                 = (Ok found_summary, tt))
    by (vm_compute; reflexivity).
  split; [exact Hl|]. split; [reflexivity|]. split; [exact Hrun|].
  exact (results_belong_to_campaign "holiday_campaign.yaml" 10 true tt tt tt
           campaign_doc campaign_fields found_summary Hl eq_refl Hrun).
Defined.

(** X10 in the campaign of two products. *)
Lemma results_are_detection_results_witness :
  let E := external found_campaign in
  check_campaign_compliance "holiday_campaign.yaml" 10 true tt
  = (Ok found_summary, tt) /\
  Forall (fun entry => detection_result 10 (result entry))
    (results found_summary).
Proof.
  intros E.
  assert (Hrun : check_campaign_compliance "holiday_campaign.yaml" 10 true tt
                 = (Ok found_summary, tt))
    by (vm_compute; reflexivity).
  split; [exact Hrun|].
  exact (results_are_detection_results "holiday_campaign.yaml" 10 true tt tt
           found_summary Hrun).
Defined.

(** X11 at an empty campaign file, which loads as [None]. *)
Lemma document_not_a_mapping_raises_witness :
  let E := external found_campaign in
  loaded "empty.yaml" tt PNone tt /\
  check_campaign_compliance "empty.yaml" 10 true tt
  = (Raise "'NoneType' object has no attribute 'get'", tt).
Proof.
  intros E.
  assert (Hl : loaded "empty.yaml" tt PNone tt)
    by (exists tt; split; reflexivity).
  split; [exact Hl|].
  refine (proj2 (document_not_a_mapping_raises "empty.yaml" 10 true tt tt
                   PNone Hl) _).
  intros entries. discriminate.
Defined.

(** X12 at a campaign whose only product has no logo. *)
Lemma no_logos_no_checks_witness :
  let E := external found_campaign in
  let fs := {| f_campaign_id := PStr "c1";
               f_products := PList [product "p2" None];
               f_markets := PList [market "us"];
               f_aspect_ratios := PList [PStr "1x1"] |} in
  loaded "plain.yaml" tt plain_doc tt /\
  fields_of plain_doc = Ok fs /\
  Forall lacks_logo [product "p2" None] /\
  check_campaign_compliance "plain.yaml" 10 false tt = (Ok no_checks, tt).
Proof.
  intros E fs.
  assert (Hl : loaded "plain.yaml" tt plain_doc tt)
    by (exists tt; split; reflexivity).
  assert (Hall : Forall lacks_logo [product "p2" None]).
  { constructor; [|constructor].
    eexists. split; [reflexivity|]. left. reflexivity. }
  split; [exact Hl|]. split; [reflexivity|]. split; [exact Hall|].
  exact (no_logos_no_checks "plain.yaml" 10 tt tt plain_doc fs
           [product "p2" None] Hl eq_refl eq_refl Hall).
Defined.

(** The exit status in four runs: the default campaign with its logo
    found, the same campaign with the logo not found, a missing file and a
    file that is not valid YAML. *)
Example main_samples :
  @main (external found_campaign) ["compliance_check.py"] tt = (Ok 0, tt) /\
  @main (external campaign) ["compliance_check.py"] tt = (Ok 1, tt) /\
  @main (external campaign) ["compliance_check.py"; "spring.yaml"] tt
  = (Ok 1, tt) /\
  @main (external campaign) ["compliance_check.py"; "broken.yaml"] tt
  = (Ok 1, tt).
Proof. vm_compute. repeat split. Qed.

(** Two command lines of the workflow. *)
Example parse_arguments_samples :
  parse_arguments ["workflow.py"; "a.yaml"; "--dropbox"; "b.yaml"]
  = (Some "b.yaml", true) /\
  parse_arguments ["workflow.py"] = (None, false).
Proof. repeat split. Qed.
